(** * node-mem/mem.py: memory analysis of a Kubernetes cluster

    A shallow embedding of [KubernetesMemoryAnalyzer] and of the Python
    built-ins its methods rely on, followed by the properties of the
    specification that were checked against it.

    Modelling conventions.
    - A Python [str] is a Rocq [string]; each character stands for the code
      point of the same number, so the strings considered are those over the
      code points 0..255.  On this range [\d] is [0-9] and the white space
      accepted by [int()] is the set given by [is_space].
    - A Python [int] is a [Z]; a Python [float] is a binary64 value of
      [SpecFloat] (precision 53, [emax] 1024, round to nearest even).
    - A computation that can raise returns a [result]; a method that also
      writes to the console is a function of the console contents so far
      (type [M]).  The exceptions considered are subclasses of [Exception].
    - The cluster is a read-only snapshot: the three API clients held by
      [self] are records of functions, each returning the listing or object
      the call yields, or the exception it raises.  The progress bars of
      [tqdm] and the styling arguments of [rich] are left out; a table is
      kept as its title and its rows of cells. *)

From Stdlib Require Import ZArith List String Ascii Bool Lia.
From Stdlib Require Import SpecFloat DecimalString.
Import ListNotations.

Local Open Scope string_scope.
Local Open Scope Z_scope.

(** ** Exceptions and results *)

Inductive exception_class :=
| ValueError | OverflowError | ZeroDivisionError | KeyError
| TypeError | AttributeError | ApiException | ValidationError.

(** An exception value: its class and [str(e)].  For the [raise] statements
    of mem.py the text is the one the f-string builds.  For exceptions raised
    by a built-in the text follows the interpreter's, with the offending
    value written as it is where the interpreter writes its [repr]. *)
Record exn := Exception { exn_class : exception_class; exn_str : string }.

Inductive result (A : Type) :=
| Return (a : A)
| Raise (e : exn).
Arguments Return {A} a.
Arguments Raise {A} e.

Definition rbind {A B} (r : result A) (k : A -> result B) : result B :=
  match r with
  | Return a => k a
  | Raise e => Raise e
  end.

Declare Scope result_scope.
Delimit Scope result_scope with result.
Notation "x <- e ;; k" := (rbind e (fun x => k))
  (at level 61, e at next level, right associativity) : result_scope.

(** ** Python built-ins *)

Module Py.

Definition code (c : ascii) : N := N_of_ascii c.

Definition in_range (lo hi : N) (c : ascii) : bool :=
  (N.leb lo (code c) && N.leb (code c) hi)%bool.

(** [\d] and [[a-zA-Z]] on the code points 0..255. *)
Definition is_digit (c : ascii) : bool := in_range 48 57 c.
Definition is_ascii_letter (c : ascii) : bool :=
  (in_range 65 90 c || in_range 97 122 c)%bool.

(** White space stripped by [int()]: tab, LF, VT, FF, CR, space, NEL, NBSP. *)
Definition is_space (c : ascii) : bool :=
  (in_range 9 13 c || N.eqb (code c) 32 || N.eqb (code c) 133
   || N.eqb (code c) 160)%bool.

Definition newline : string := String (ascii_of_N 10) EmptyString.

Fixpoint all_chars (p : ascii -> bool) (s : string) : bool :=
  match s with
  | EmptyString => true
  | String c r => (p c && all_chars p r)%bool
  end.

(** The longest prefix of characters in [p], and the rest. *)
Fixpoint span (p : ascii -> bool) (s : string) : string * string :=
  match s with
  | EmptyString => (EmptyString, EmptyString)
  | String c r =>
      if p c then let '(a, b) := span p r in (String c a, b)
      else (EmptyString, s)
  end.

Fixpoint lstrip (p : ascii -> bool) (s : string) : string :=
  match s with
  | EmptyString => EmptyString
  | String c r => if p c then lstrip p r else s
  end.

(** [s.rstrip(chars)]: the trailing characters in [chars] are removed. *)
Fixpoint rstrip (p : ascii -> bool) (s : string) : string :=
  match s with
  | EmptyString => EmptyString
  | String c r =>
      match rstrip p r with
      | EmptyString => if p c then EmptyString else String c EmptyString
      | r' => String c r'
      end
  end.

Definition in_chars (chars : string) (c : ascii) : bool :=
  existsb (Ascii.eqb c) (list_ascii_of_string chars).

(** [sep.join(parts)] *)
Fixpoint join (sep : string) (parts : list string) : string :=
  match parts with
  | [] => ""
  | [p] => p
  | p :: ps => p ++ sep ++ join sep ps
  end.

(** Truth value of a [str]. *)
Definition truthy (s : string) : bool :=
  match s with EmptyString => false | _ => true end.

(** *** [int(str)] *)

(** [str(z)] for [z >= 0]. *)
Definition str_of_nonneg (z : Z) : string :=
  NilZero.string_of_uint (N.to_uint (Z.to_N z)).

Definition digit_value (c : ascii) : Z := Z.of_N (code c) - 48.

Fixpoint int_of_digits_from (acc : Z) (s : string) : Z :=
  match s with
  | EmptyString => acc
  | String c r => int_of_digits_from (10 * acc + digit_value c) r
  end.

Definition int_of_digits (s : string) : Z := int_of_digits_from 0 s.

(** The digits of a literal in which single underscores may separate
    digits; [prev] tells that a digit must come next. *)
Fixpoint literal_digits (prev : bool) (s : string) : option string :=
  match s with
  | EmptyString => if prev then None else Some EmptyString
  | String c r =>
      if is_digit c then option_map (String c) (literal_digits false r)
      else if Ascii.eqb c "_" then
        if prev then None else literal_digits true r
      else None
  end.

(** [sys.get_int_max_str_digits()] of an interpreter started with its
    defaults, and the length below which the limit is not looked at. *)
Definition int_max_str_digits : nat := 4300.
Definition str_digits_check_threshold : nat := 640.

Definition exceeds_int_max_str_digits (digits : nat) : bool :=
  (Nat.ltb str_digits_check_threshold digits
   && Nat.ltb 0 int_max_str_digits
   && Nat.ltb int_max_str_digits digits)%bool.

Definition exceeds_the_limit (digits : nat) : exn :=
  Exception ValueError
    ("Exceeds the limit (" ++ str_of_nonneg (Z.of_nat int_max_str_digits)
       ++ " digits) for integer string conversion: value has "
       ++ str_of_nonneg (Z.of_nat digits)
       ++ " digits; use sys.set_int_max_str_digits() to increase the limit").

Definition int_of_str (s : string) : result Z :=
  let t := rstrip is_space (lstrip is_space s) in
  let '(negative, body) :=
    match t with
    | String "-" r => (true, r)
    | String "+" r => (false, r)
    | _ => (false, t)
    end in
  match literal_digits true body with
  | None =>
      Raise (Exception ValueError
               ("invalid literal for int() with base 10: " ++ s))
  | Some ds =>
      if exceeds_int_max_str_digits (String.length ds) then
        Raise (exceeds_the_limit (String.length ds))
      else Return (if negative then - int_of_digits ds else int_of_digits ds)
  end.

(** *** Floats *)

Definition prec : Z := 53.
Definition emax : Z := 1024.
Definition float : Set := spec_float.

(** Conversion of an [int] operand in mixed arithmetic. *)
Definition float_of_int (n : Z) : result float :=
  match binary_normalize prec emax n 0 false with
  | S754_infinity _ =>
      Raise (Exception OverflowError "int too large to convert to float")
  | f => Return f
  end.

(** [a / b] on two [int]s: the correctly rounded quotient. *)
Definition int_truediv (a b : Z) : result float :=
  if b =? 0 then Raise (Exception ZeroDivisionError "division by zero")
  else if a =? 0 then Return (S754_zero (b <? 0))
  else
    match SFdiv prec emax
            (S754_finite (a <? 0) (Z.to_pos (Z.abs a)) 0)
            (S754_finite (b <? 0) (Z.to_pos (Z.abs b)) 0) with
    | S754_infinity _ =>
        Raise (Exception OverflowError
                 "integer division result too large for a float")
    | f => Return f
    end.

(** [x / y] on two [float]s. *)
Definition float_truediv (x y : float) : result float :=
  match y with
  | S754_zero _ =>
      Raise (Exception ZeroDivisionError "float division by zero")
  | _ => Return (SFdiv prec emax x y)
  end.

Definition float_mul (x y : float) : float := SFmul prec emax x y.

(** [x > y] *)
Definition float_gt (x y : float) : bool := SFltb y x.

Definition cannot_convert_infinity : exn :=
  Exception OverflowError "cannot convert float infinity to integer".
Definition cannot_convert_nan : exn :=
  Exception ValueError "cannot convert float NaN to integer".

(** [int(x)] on a [float]: truncation towards zero. *)
Definition int_of_float (x : float) : result Z :=
  match x with
  | S754_zero _ => Return 0
  | S754_finite s m e =>
      let a := Z.shiftl (Zpos m) e in
      Return (if s then - a else a)
  | S754_infinity _ => Raise cannot_convert_infinity
  | S754_nan => Raise cannot_convert_nan
  end.

(** [math.ceil(x)] on a [float]. *)
Definition ceil_float (x : float) : result Z :=
  match x with
  | S754_zero _ => Return 0
  | S754_finite s m e =>
      Return (if s then - Z.shiftl (Zpos m) e
              else - Z.shiftl (Zneg m) e)
  | S754_infinity _ => Raise cannot_convert_infinity
  | S754_nan => Raise cannot_convert_nan
  end.

(** The values of the dictionary [units] are [int]s and one [float]. *)
Inductive number :=
| PyInt (z : Z)
| PyFloat (x : float).

(** [a * b] with an [int] on the left. *)
Definition int_mul (a : Z) (b : number) : result number :=
  match b with
  | PyInt z => Return (PyInt (a * z))
  | PyFloat y =>
      (x <- float_of_int a ;; Return (PyFloat (float_mul x y)))%result
  end.

(** [int(v)] *)
Definition int_of_number (v : number) : result Z :=
  match v with
  | PyInt z => Return z
  | PyFloat x => int_of_float x
  end.

(** *** Formatting *)

(** A comma before every group of three digits that ends the string. *)
Fixpoint group3 (digits : string) : string :=
  match digits with
  | EmptyString => EmptyString
  | String c r =>
      String c
        (if (Nat.ltb 0 (String.length r)
             && Nat.eqb (Nat.modulo (String.length r) 3) 0)%bool
         then "," ++ group3 r
         else group3 r)
  end.

(** [f"{z:,}"] on an [int]. *)
Definition format_comma (z : Z) : string :=
  (if z <? 0 then "-" else "") ++ group3 (str_of_nonneg (Z.abs z)).

(** [m * 2^e * 100] rounded to the nearest integer, ties to even. *)
Definition hundredths (m : positive) (e : Z) : Z :=
  if 0 <=? e then Zpos m * 2 ^ e * 100
  else
    let num := Zpos m * 100 in
    let den := 2 ^ (- e) in
    let q := num / den in
    match (2 * (num mod den)) ?= den with
    | Lt => q
    | Eq => if Z.even q then q else q + 1
    | Gt => q + 1
    end.

(** [f"{x:.2f}"] on a [float]. *)
Definition format_2f (x : float) : string :=
  match x with
  | S754_zero s => (if s then "-" else "") ++ "0.00"
  | S754_infinity s => (if s then "-" else "") ++ "inf"
  | S754_nan => "nan"
  | S754_finite s m e =>
      let h := hundredths m e in
      let r := h mod 100 in
      (if s then "-" else "") ++ str_of_nonneg (h / 100) ++ "."
        ++ (if r <? 10 then "0" else "") ++ str_of_nonneg r
  end.

End Py.

(** ** Dictionaries, results over lists *)

Fixpoint dict_get {V : Type} (d : list (string * V)) (k : string) : option V :=
  match d with
  | [] => None
  | (k', v) :: d' => if String.eqb k' k then Some v else dict_get d' k
  end.

Fixpoint mapM {A B : Type} (f : A -> result B) (l : list A) : result (list B) :=
  match l with
  | [] => Return []
  | a :: l' => (b <- f a ;; bs <- mapM f l' ;; Return (b :: bs))%result
  end.

(** ** The quantity parser *)

(** [re.match(r"^(\d+)([a-zA-Z]+)?$", value)]: [None] when there is no
    match, else [group(1)] and [group(2)].  [$] matches at the end of the
    string and before a line feed that ends it. *)
Definition match_quantity (value : string) : option (string * option string) :=
  let '(number, rest) := Py.span Py.is_digit value in
  let '(unit, tail) := Py.span Py.is_ascii_letter rest in
  match number with
  | EmptyString => None
  | _ =>
      if (String.eqb tail "" || String.eqb tail Py.newline)%bool then
        Some (number, match unit with EmptyString => None | _ => Some unit end)
      else None
  end.

(** [units = {"Ki": 1 / 1024, "M": 1, "Mi": 1, "G": 1024, "Gi": 1024}] *)
Definition units : result (list (string * Py.number)) :=
  (ki <- Py.int_truediv 1 1024 ;;
   Return [("Ki", Py.PyFloat ki); ("M", Py.PyInt 1); ("Mi", Py.PyInt 1);
           ("G", Py.PyInt 1024); ("Gi", Py.PyInt 1024)])%result.

Definition invalid_memory_format (value : string) : exn :=
  Exception ValueError ("Invalid memory format: " ++ value).

Definition unsupported_memory_unit (unit : string) : exn :=
  Exception ValueError ("Unsupported memory unit: " ++ unit).

Definition parse_memory (value : string) : result Z :=
  (units <- units ;;
   match match_quantity value with
   | None => Raise (invalid_memory_format value)
   | Some (group1, group2) =>
       number <- Py.int_of_str group1 ;;
       let unit := match group2 with Some u => u | None => "M" end in
       match dict_get units unit with
       | None => Raise (unsupported_memory_unit unit)
       | Some factor =>
           product <- Py.int_mul number factor ;;
           Py.int_of_number product
       end
   end)%result.

(** ** Objects of the Kubernetes client *)

Module K8s.

Record V1OwnerReference := {
  owner_kind : string;
  owner_name : string
}.

Record V1ObjectMeta := {
  name : string;
  namespace : string;
  owner_references : option (list V1OwnerReference)
}.

(** [node_name] is [pod.spec.node_name]. *)
Record V1Pod := {
  pod_metadata : V1ObjectMeta;
  node_name : option string
}.

(** [capacity] is [node.status.capacity]. *)
Record V1Node := {
  node_metadata : V1ObjectMeta;
  capacity : option (list (string * string))
}.

(** A ReplicaSet, StatefulSet or DaemonSet; [match_labels] is
    [controller.spec.selector.match_labels], in the order of the dict. *)
Record V1Controller := {
  controller_metadata : V1ObjectMeta;
  match_labels : option (list (string * string))
}.

(** The value a metrics call returns: decoded JSON. *)
#[local] Unset Elimination Schemes.
Inductive json :=
| JNull
| JBool (b : bool)
| JNumber (literal : string)
| JString (s : string)
| JArray (items : list json)
| JObject (members : list (string * json)).
#[local] Set Elimination Schemes.

Record CoreV1Api := {
  list_node : result (list V1Node);
  list_pod_for_all_namespaces : forall field_selector : string,
      result (list V1Pod);
  list_namespaced_pod : forall namespace label_selector : string,
      result (list V1Pod)
}.

Record AppsV1Api := {
  read_namespaced_replica_set : forall name namespace : string,
      result V1Controller;
  read_namespaced_stateful_set : forall name namespace : string,
      result V1Controller;
  read_namespaced_daemon_set : forall name namespace : string,
      result V1Controller;
  list_namespaced_replica_set : forall namespace : string,
      result (list V1Controller)
}.

Record CustomObjectsApi := {
  get_cluster_custom_object : forall group version plural name : string,
      result json;
  get_namespaced_custom_object :
    forall (group version : string) (namespace : option string)
           (plural name : string), result json
}.

End K8s.

(** ** The pydantic models of the metrics objects *)

Record ResourceUsage := {
  cpu : string;
  memory : string
}.

Record NodeMetrics := {
  nm_apiVersion : string;
  nm_kind : string;
  nm_metadata : list (string * K8s.json);
  nm_timestamp : string;
  nm_window : string;
  nm_usage : ResourceUsage
}.

Record ContainerUsage := {
  container_name : string;
  container_usage : ResourceUsage
}.

Record PodMetrics := {
  pm_apiVersion : string;
  pm_kind : string;
  pm_metadata : list (string * K8s.json);
  pm_timestamp : string;
  pm_window : string;
  containers : list ContainerUsage
}.

(** Construction of a model from keyword arguments: every declared field is
    required, a [str] field takes a string, [dict] an object, a model field
    an object that validates, [list[ContainerUsage]] an array of such
    objects; other members are ignored. *)
Module Pydantic.

Import K8s.

Definition validation_error (model : string) : exn :=
  Exception ValidationError ("validation error for " ++ model).

Definition str_field (model : string) (o : list (string * json)) (k : string)
  : result string :=
  match dict_get o k with
  | Some (JString s) => Return s
  | _ => Raise (validation_error model)
  end.

Definition dict_field (model : string) (o : list (string * json)) (k : string)
  : result (list (string * json)) :=
  match dict_get o k with
  | Some (JObject d) => Return d
  | _ => Raise (validation_error model)
  end.

Definition usage_field (model : string) (o : list (string * json))
  : result ResourceUsage :=
  (u <- dict_field model o "usage" ;;
   c <- str_field model u "cpu" ;;
   m <- str_field model u "memory" ;;
   Return {| cpu := c; memory := m |})%result.

Definition container_usage (model : string) (v : json) : result ContainerUsage :=
  match v with
  | JObject o =>
      (n <- str_field model o "name" ;;
       u <- usage_field model o ;;
       Return {| container_name := n; container_usage := u |})%result
  | _ => Raise (validation_error model)
  end.

Definition keyword_arguments (metrics : json) : result (list (string * json)) :=
  match metrics with
  | JObject o => Return o
  | _ => Raise (Exception TypeError "keyword arguments must come from a mapping")
  end.

(** [NodeMetrics] built from the members of [metrics] as keyword arguments. *)
Definition NodeMetrics_init (metrics : json) : result NodeMetrics :=
  (o <- keyword_arguments metrics ;;
   a <- str_field "NodeMetrics" o "apiVersion" ;;
   k <- str_field "NodeMetrics" o "kind" ;;
   m <- dict_field "NodeMetrics" o "metadata" ;;
   t <- str_field "NodeMetrics" o "timestamp" ;;
   w <- str_field "NodeMetrics" o "window" ;;
   u <- usage_field "NodeMetrics" o ;;
   Return {| nm_apiVersion := a; nm_kind := k; nm_metadata := m;
             nm_timestamp := t; nm_window := w; nm_usage := u |})%result.

(** [PodMetrics] built from the members of [metrics] as keyword arguments. *)
Definition PodMetrics_init (metrics : json) : result PodMetrics :=
  (o <- keyword_arguments metrics ;;
   a <- str_field "PodMetrics" o "apiVersion" ;;
   k <- str_field "PodMetrics" o "kind" ;;
   m <- dict_field "PodMetrics" o "metadata" ;;
   t <- str_field "PodMetrics" o "timestamp" ;;
   w <- str_field "PodMetrics" o "window" ;;
   cs <- match dict_get o "containers" with
         | Some (JArray l) => mapM (container_usage "PodMetrics") l
         | _ => Raise (validation_error "PodMetrics")
         end ;;
   Return {| pm_apiVersion := a; pm_kind := k; pm_metadata := m;
             pm_timestamp := t; pm_window := w; containers := cs |})%result.

End Pydantic.

(** ** The console *)

Record Table := {
  title : string;
  columns : list string;
  rows : list (list (option string))
}.

(** What [console.print] was given: marked-up text or a table. *)
Inductive renderable :=
| Markup (text : string)
| Rendered (table : Table).

Definition Console : Type := list renderable.

(** A method: from the console contents so far to its outcome and the
    contents afterwards. *)
Definition M (A : Type) : Type := Console -> result A * Console.

Definition ret {A} (a : A) : M A := fun out => (Return a, out).

Definition bind {A B} (m : M A) (k : A -> M B) : M B :=
  fun out =>
    match m out with
    | (Return a, out') => k a out'
    | (Raise e, out') => (Raise e, out')
    end.

Definition lift {A} (r : result A) : M A := fun out => (r, out).

(** [console.print(r)], taken to add [r] to the console and to return. *)
Definition console_print (r : renderable) : M unit :=
  fun out => (Return tt, (out ++ [r])%list).

(** [try: body  except Exception as e: handler] *)
Definition try_except {A} (body : M A) (handler : exn -> M A) : M A :=
  fun out =>
    match body out with
    | (Raise e, out') => handler e out'
    | done => done
    end.

Declare Scope method_scope.
Delimit Scope method_scope with M.
Notation "x <- e ;; k" := (bind e (fun x => k))
  (at level 61, e at next level, right associativity) : method_scope.
Notation "e ;;; k" := (bind e (fun _ => k))
  (at level 61, right associativity) : method_scope.

(** [for x in xs: body], the loop variables threaded through; a body that
    ends in [continue] returns them as they are. *)
Fixpoint for_each {X S : Type} (xs : list X) (body : X -> S -> M S) (s : S)
  : M S :=
  match xs with
  | [] => ret s
  | x :: xs' => (s' <- body x s ;; for_each xs' body s')%M
  end.

(** ** KubernetesMemoryAnalyzer *)

Import K8s.

(** [self]: the three API clients; the console is the state of [M]. *)
Record KubernetesMemoryAnalyzer := {
  core_api : CoreV1Api;
  apps_api : AppsV1Api;
  metrics_api : CustomObjectsApi
}.

Definition in_list (s : string) (l : list string) : bool :=
  existsb (String.eqb s) l.

Definition unsupported_controller_kind (controller_kind : string) : exn :=
  Exception ValueError ("Unsupported controller kind: " ++ controller_kind).

Definition items_of_none : exn :=
  Exception AttributeError "'NoneType' object has no attribute 'items'".

(** The branch of [fetch_pods_for_controller] for the kinds that carry a
    label selector (lines 83 to 96). *)
Definition fetch_pods_by_label_selector (self : KubernetesMemoryAnalyzer)
    (controller_kind controller_name namespace : string)
  : result (list V1Pod) :=
  (controller <-
     (if String.eqb controller_kind "ReplicaSet" then
        read_namespaced_replica_set (apps_api self) controller_name namespace
      else if String.eqb controller_kind "StatefulSet" then
        read_namespaced_stateful_set (apps_api self) controller_name namespace
      else if String.eqb controller_kind "DaemonSet" then
        read_namespaced_daemon_set (apps_api self) controller_name namespace
      else Raise (unsupported_controller_kind controller_kind)) ;;
   labels <- match match_labels controller with
             | Some d => Return d
             | None => Raise items_of_none
             end ;;
   let label_selector :=
     Py.join "," (map (fun kv => fst kv ++ "=" ++ snd kv) labels) in
   list_namespaced_pod (core_api self) namespace label_selector)%result.

(** The test of the two nested loops over the ReplicaSets and their owners. *)
Definition owned_by_deployment (controller_name : string) (rs : V1Controller)
  : bool :=
  match owner_references (controller_metadata rs) with
  | Some owners =>
      existsb (fun owner =>
                 String.eqb (owner_kind owner) "Deployment"
                 && String.eqb (owner_name owner) controller_name)%bool owners
  | None => false
  end.

(** The recursive call of the source is made with the literal
    ["ReplicaSet"], so it runs the label-selector branch.  A Deployment for
    which the loops return nothing reaches the [raise] that ends the
    function, as any kind outside the four does. *)
Definition fetch_pods_for_controller (self : KubernetesMemoryAnalyzer)
    (controller_kind controller_name namespace : string)
  : result (list V1Pod) :=
  if in_list controller_kind ["ReplicaSet"; "StatefulSet"; "DaemonSet"] then
    fetch_pods_by_label_selector self controller_kind controller_name namespace
  else
    (found <-
       (if String.eqb controller_kind "Deployment" then
          replicasets <- list_namespaced_replica_set (apps_api self) namespace ;;
          Return (find (owned_by_deployment controller_name) replicasets)
        else Return None) ;;
     match found with
     | Some rs =>
         fetch_pods_by_label_selector self "ReplicaSet"
           (name (controller_metadata rs)) namespace
     | None => Raise (unsupported_controller_kind controller_kind)
     end)%result.

Definition get_controller_kind_and_name (pod : V1Pod)
  : option string * option string :=
  match owner_references (K8s.pod_metadata pod) with
  | Some (owner :: _) => (Some (owner_kind owner), Some (owner_name owner))
  | _ => (None, None)
  end.

(** [sum(self.parse_memory(container.usage.memory) for container in ...)] *)
Fixpoint sum_parsed (acc : Z) (cs : list ContainerUsage) : result Z :=
  match cs with
  | [] => Return acc
  | c :: cs' =>
      (v <- parse_memory (memory (container_usage c)) ;;
       sum_parsed (acc + v) cs')%result
  end.

Definition unsupported_resource_type (resource_type : string) : exn :=
  Exception ValueError ("Unsupported resource type: " ++ resource_type).

(** The [try] block of [get_memory_utilization]. *)
Definition fetch_memory (self : KubernetesMemoryAnalyzer)
    (resource_type : string) (namespace : option string) (name : string)
  : result Z :=
  (if String.eqb resource_type "node" then
     metrics <- get_cluster_custom_object (metrics_api self)
                  "metrics.k8s.io" "v1beta1" "nodes" name ;;
     node_metrics <- Pydantic.NodeMetrics_init metrics ;;
     parse_memory (memory (nm_usage node_metrics))
   else if String.eqb resource_type "pod" then
     metrics <- get_namespaced_custom_object (metrics_api self)
                  "metrics.k8s.io" "v1beta1" namespace "pods" name ;;
     pod_metrics <- Pydantic.PodMetrics_init metrics ;;
     sum_parsed 0 (containers pod_metrics)
   else Raise (unsupported_resource_type resource_type))%result.

Definition error_fetching_memory (resource_type name : string) (e : exn)
  : renderable :=
  Markup ("[bold red]Error fetching memory for " ++ resource_type ++ " "
            ++ name ++ ": " ++ exn_str e ++ "[/bold red]").

Definition get_memory_utilization (self : KubernetesMemoryAnalyzer)
    (resource_type : string) (namespace : option string) (name : string)
  : M (option Z) :=
  try_except
    (v <- lift (fetch_memory self resource_type namespace name) ;;
     ret (Some v))%M
    (fun e =>
       (console_print (error_fetching_memory resource_type name e) ;;;
        ret None)%M).

(** *** Node level *)

Definition node_table (rows : list (list (option string))) : Table :=
  {| title := "Kubernetes Node Memory Utilization";
     columns := ["Node Name"; "Memory Capacity (Mi)"; "Memory Usage (Mi)";
                 "Utilization (%)"; "Status"];
     rows := rows |}.

(** The status cell of a node above 80 percent; in the source the text is
    preceded by a warning sign (U+26A0 U+FE0F). *)
Definition high_usage_status : string := "High Usage".

Definition not_subscriptable : exn :=
  Exception TypeError "'NoneType' object is not subscriptable".

(** [int(node.status.capacity["memory"].rstrip("Ki")) / 1024] *)
Definition memory_capacity_of (node : V1Node) : result Py.float :=
  (d <- match capacity node with
        | Some d => Return d
        | None => Raise not_subscriptable
        end ;;
   quantity <- match dict_get d "memory" with
               | Some q => Return q
               | None => Raise (Exception KeyError "'memory'")
               end ;;
   kib <- Py.int_of_str (Py.rstrip (Py.in_chars "Ki") quantity) ;;
   Py.int_truediv kib 1024)%result.

(** The float an [int] literal stands for in mixed arithmetic. *)
Definition float_literal (n : Z) : Py.float :=
  binary_normalize Py.prec Py.emax n 0 false.

(** [(used_memory / memory_capacity) * 100] *)
Definition utilization (used_memory : Z) (memory_capacity : Py.float)
  : result Py.float :=
  (used <- Py.float_of_int used_memory ;;
   ratio <- Py.float_truediv used memory_capacity ;;
   Return (Py.float_mul ratio (float_literal 100)))%result.

(** [utilization_percentage > 80] *)
Definition above_80 (utilization_percentage : Py.float) : bool :=
  Py.float_gt utilization_percentage (float_literal 80).

Definition analyze_nodes_body (self : KubernetesMemoryAnalyzer) (node : V1Node)
    (st : list (list (option string)) * list string)
  : M (list (list (option string)) * list string) :=
  let '(table_rows, high_usage_nodes) := st in
  let node_name := name (K8s.node_metadata node) in
  (memory_capacity <- lift (memory_capacity_of node) ;;
   used_memory <- get_memory_utilization self "node" None node_name ;;
   match used_memory with
   | None => ret (table_rows, high_usage_nodes)
   | Some used_memory =>
       utilization_percentage <- lift (utilization used_memory memory_capacity) ;;
       let status :=
         if above_80 utilization_percentage then high_usage_status else "OK" in
       let high_usage_nodes :=
         if above_80 utilization_percentage
         then (high_usage_nodes ++ [node_name])%list else high_usage_nodes in
       capacity_mi <- lift (Py.ceil_float memory_capacity) ;;
       ret ((table_rows ++
               [[Some node_name;
                 Some (Py.format_comma capacity_mi);
                 Some (Py.format_comma used_memory);
                 Some (Py.format_2f utilization_percentage);
                 Some status]])%list,
            high_usage_nodes)
   end)%M.

Definition analyze_nodes (self : KubernetesMemoryAnalyzer) : M (list string) :=
  (nodes <- lift (list_node (core_api self)) ;;
   st <- for_each nodes (analyze_nodes_body self) ([], []) ;;
   console_print (Rendered (node_table (fst st))) ;;;
   ret (snd st))%M.

(** *** Pod level *)

Definition pod_table (node_name : string) (rows : list (list (option string)))
  : Table :=
  {| title := "Pods Memory Utilization on Node: " ++ node_name;
     columns := ["Pod Name"; "Namespace"; "Memory Usage (Mi)"];
     rows := rows |}.

(** Loop variables of [analyze_pods_on_node]. *)
Record pod_scan := {
  scan_rows : list (list (option string));
  highest_usage_pod : option V1Pod;
  highest_usage : Z
}.

Definition analyze_pods_body (self : KubernetesMemoryAnalyzer) (pod : V1Pod)
    (st : pod_scan) : M pod_scan :=
  let pod_name := name (K8s.pod_metadata pod) in
  let namespace := namespace (K8s.pod_metadata pod) in
  (pod_memory <- get_memory_utilization self "pod" (Some namespace) pod_name ;;
   match pod_memory with
   | None => ret st
   | Some pod_memory =>
       let st' :=
         if highest_usage st <? pod_memory
         then {| scan_rows := scan_rows st;
                 highest_usage_pod := Some pod;
                 highest_usage := pod_memory |}
         else st in
       ret {| scan_rows :=
                (scan_rows st' ++
                   [[Some pod_name; Some namespace;
                     Some (Py.format_comma pod_memory)]])%list;
              highest_usage_pod := highest_usage_pod st';
              highest_usage := highest_usage st' |}
   end)%M.

Definition analyze_pods_on_node (self : KubernetesMemoryAnalyzer)
    (node_name : string) : M (option V1Pod) :=
  (pods <- lift (list_pod_for_all_namespaces (core_api self)
                   ("spec.nodeName=" ++ node_name)) ;;
   st <- for_each pods (analyze_pods_body self)
           {| scan_rows := []; highest_usage_pod := None; highest_usage := 0 |} ;;
   console_print (Rendered (pod_table node_name (scan_rows st))) ;;;
   ret (highest_usage_pod st))%M.

(** *** Controller level *)

Definition controller_table (controller_kind controller_name : string)
    (rows : list (list (option string))) : Table :=
  {| title := "Memory Utilization for " ++ controller_kind ++ " "
                ++ controller_name;
     columns := ["Pod Name"; "Node Name"; "Memory Usage (Mi)"];
     rows := rows |}.

Definition analyze_controller_body (self : KubernetesMemoryAnalyzer)
    (pod : V1Pod) (table_rows : list (list (option string)))
  : M (list (list (option string))) :=
  let pod_name := name (K8s.pod_metadata pod) in
  let pod_node := node_name pod in
  (pod_memory <- get_memory_utilization self "pod"
                   (Some (namespace (K8s.pod_metadata pod))) pod_name ;;
   match pod_memory with
   | None => ret table_rows
   | Some pod_memory =>
       ret (table_rows ++
              [[Some pod_name; pod_node; Some (Py.format_comma pod_memory)]])%list
   end)%M.

Definition error_analyzing (controller_kind controller_name : string) (e : exn)
  : renderable :=
  Markup ("[bold red]Error analyzing " ++ controller_kind ++ " "
            ++ controller_name ++ ": " ++ exn_str e ++ "[/bold red]").

Definition analyze_controller (self : KubernetesMemoryAnalyzer)
    (controller_kind controller_name namespace : string) : M unit :=
  try_except
    (controller_pods <-
       lift (fetch_pods_for_controller self controller_kind controller_name
               namespace) ;;
     table_rows <- for_each controller_pods (analyze_controller_body self) [] ;;
     console_print
       (Rendered (controller_table controller_kind controller_name table_rows)))%M
    (fun e => console_print (error_analyzing controller_kind controller_name e)).

(** *** The run *)

(** The body of the loop of [run] over the high-usage nodes. *)
Definition run_body (self : KubernetesMemoryAnalyzer) (node_name : string)
    (_ : unit) : M unit :=
  (highest_usage_pod <- analyze_pods_on_node self node_name ;;
   match highest_usage_pod with
   | Some pod =>
       match get_controller_kind_and_name pod with
       | (Some controller_kind, Some controller_name) =>
           if (Py.truthy controller_kind && Py.truthy controller_name)%bool
           then analyze_controller self controller_kind controller_name
                  (namespace (K8s.pod_metadata pod))
           else ret tt
       | _ => ret tt
       end
   | None => ret tt
   end)%M.

Definition run (self : KubernetesMemoryAnalyzer) : M unit :=
  (high_usage_nodes <- analyze_nodes self ;;
   for_each high_usage_nodes (run_body self) tt)%M.

(** The script: the analyzer is built (which loads the cluster
    configuration and may raise), then run. *)
Definition main (new_analyzer : result KubernetesMemoryAnalyzer) : M unit :=
  (analyzer <- lift new_analyzer ;; run analyzer)%M.

(** Exit status of the interpreter: 0 when the script ends, 1 when an
    exception reaches the top level. *)
Definition exit_status {A} (outcome : result A * Console) : Z :=
  match fst outcome with
  | Return _ => 0
  | Raise _ => 1
  end.

(** [1 / 1024], the factor of [Ki]. *)
Definition two_pow_minus_10 : Py.float :=
  S754_finite false 4503599627370496 (-62).

(** ** Vocabulary of the statements *)

(** The strings the pattern of [parse_memory] matches, read off the
    regular expression: one or more digits, then letters if any, up to
    the end of the string or to a line feed that ends it. *)
Definition quantity_pattern (value number unit : string) : Prop :=
  number <> ""
  /\ Py.all_chars Py.is_digit number = true
  /\ Py.all_chars Py.is_ascii_letter unit = true
  /\ (value = number ++ unit \/ value = number ++ unit ++ Py.newline).

(** A string that is empty or starts with a character outside [p]. *)
Definition starts_outside (p : ascii -> bool) (s : string) : Prop :=
  match s with
  | EmptyString => True
  | String c _ => p c = false
  end.

(** [group(2)] of a match whose letters are [unit]. *)
Definition optional_group (unit : string) : option string :=
  match unit with
  | EmptyString => None
  | _ => Some unit
  end.

(** The unit a matched string is read in: its letters, [M] without any. *)
Definition unit_or_default (unit : string) : string :=
  match unit with
  | EmptyString => "M"
  | _ => unit
  end.

Definition unit_names : list string := ["Ki"; "M"; "Mi"; "G"; "Gi"].


Definition list_sum (l : list Z) : Z := fold_right Z.add 0 l.

Definition container_memory (c : ContainerUsage) : string :=
  memory (container_usage c).

(** What the metrics fetch yields for a node and for a pod. *)
Definition node_usage (self : KubernetesMemoryAnalyzer) (node : V1Node)
  : result Z :=
  fetch_memory self "node" None (name (K8s.node_metadata node)).



(** The cells of the row of a node, and whether it is a high-usage node. *)
Definition node_row (node : V1Node) (used_memory : Z)
  : result (list (option string) * bool) :=
  (memory_capacity <- memory_capacity_of node ;;
   utilization_percentage <- utilization used_memory memory_capacity ;;
   capacity_mi <- Py.ceil_float memory_capacity ;;
   Return ([Some (name (K8s.node_metadata node));
            Some (Py.format_comma capacity_mi);
            Some (Py.format_comma used_memory);
            Some (Py.format_2f utilization_percentage);
            Some (if above_80 utilization_percentage
                  then high_usage_status else "OK")],
           above_80 utilization_percentage))%result.






(** ** Sample clusters *)

Module Demo.

Definition not_found : exn := Exception ApiException "(404) Reason: Not Found".

Definition usage_json (mem : string) : json :=
  JObject [("cpu", JString "100m"); ("memory", JString mem)].

Definition node_metrics_json (mem : string) : json :=
  JObject [("apiVersion", JString "metrics.k8s.io/v1beta1");
           ("kind", JString "NodeMetrics");
           ("metadata", JObject []);
           ("timestamp", JString "2025-01-01T00:00:00Z");
           ("window", JString "10s");
           ("usage", usage_json mem)].

Definition pod_metrics_json (mems : list string) : json :=
  JObject [("apiVersion", JString "metrics.k8s.io/v1beta1");
           ("kind", JString "PodMetrics");
           ("metadata", JObject []);
           ("timestamp", JString "2025-01-01T00:00:00Z");
           ("window", JString "10s");
           ("containers",
            JArray (map (fun m => JObject [("name", JString "app");
                                           ("usage", usage_json m)]) mems))].

Definition node (node_name quantity : string) : V1Node :=
  {| K8s.node_metadata :=
       {| name := node_name; namespace := ""; owner_references := None |};
     capacity := Some [("cpu", "4"); ("memory", quantity)] |}.

Definition pod (pod_name on_node : string) (owners : list V1OwnerReference)
  : V1Pod :=
  {| K8s.pod_metadata :=
       {| name := pod_name; namespace := "default";
          owner_references := Some owners |};
     node_name := Some on_node |}.

Definition replica_set (rs_name deployment : string) : V1Controller :=
  {| controller_metadata :=
       {| name := rs_name; namespace := "default";
          owner_references :=
            Some [{| owner_kind := "Deployment"; owner_name := deployment |}] |};
     match_labels := Some [("app", deployment)] |}.

Definition lookup {V} (d : list (string * V)) (k : string) : result V :=
  match dict_get d k with
  | Some v => Return v
  | None => Raise not_found
  end.

(** A cluster given by its nodes, pods and ReplicaSets and by the metrics
    objects the metrics server holds, keyed by name. *)
Definition analyzer (nodes : list V1Node) (node_metrics : list (string * json))
    (pods : list V1Pod) (pod_metrics : list (string * json))
    (replicasets : list V1Controller) : KubernetesMemoryAnalyzer :=
  {| core_api :=
       {| list_node := Return nodes;
          list_pod_for_all_namespaces := fun field_selector =>
            Return (filter (fun p =>
                              match node_name p with
                              | Some n =>
                                  String.eqb ("spec.nodeName=" ++ n) field_selector
                              | None => false
                              end) pods);
          list_namespaced_pod := fun ns _ =>
            Return (filter (fun p =>
                              String.eqb (namespace (K8s.pod_metadata p)) ns)
                      pods) |};
     apps_api :=
       {| read_namespaced_replica_set := fun n _ =>
            lookup (map (fun rs => (name (controller_metadata rs), rs))
                      replicasets) n;
          read_namespaced_stateful_set := fun _ _ => Raise not_found;
          read_namespaced_daemon_set := fun _ _ => Raise not_found;
          list_namespaced_replica_set := fun ns =>
            Return (filter (fun rs =>
                              String.eqb (namespace (controller_metadata rs)) ns)
                      replicasets) |};
     metrics_api :=
       {| get_cluster_custom_object := fun _ _ _ n => lookup node_metrics n;
          get_namespaced_custom_object := fun _ _ _ _ n =>
            lookup pod_metrics n |} |}.

Definition job_owner : V1OwnerReference :=
  {| owner_kind := "Job"; owner_name := "backup" |}.

Definition p1 : V1Pod := pod "p1" "node-a" [].
Definition p2 : V1Pod := pod "p2" "node-a" [job_owner].
Definition p3 : V1Pod := pod "p3" "node-a" [].
Definition p4 : V1Pod := pod "p4" "node-a" [].

Definition node_a : V1Node := node "node-a" "1024000Ki".
Definition node_b : V1Node := node "node-b" "1024000Ki".
Definition node_c : V1Node := node "node-c" "2048000Ki".

(** Three nodes of 1000, 1000 and 2000 MiB; the metrics server knows the
    first two, at 801 and 800 MiB.  Four pods on the first node, using 50,
    120, 120 and 30 MiB, the second of them owned by a Job. *)
Definition cluster : KubernetesMemoryAnalyzer :=
  analyzer [node_a; node_c; node_b]
    [("node-a", node_metrics_json "801Mi"); ("node-b", node_metrics_json "800Mi")]
    [p1; p2; p3; p4]
    [("p1", pod_metrics_json ["50M"]);
     ("p2", pod_metrics_json ["100M"; "20M"]);
     ("p3", pod_metrics_json ["120M"]);
     ("p4", pod_metrics_json ["30M"])]
    [replica_set "api-5d4f" "api"].



(** A node that reports no memory, and a node whose usage is beyond any float. *)
Definition node_z : V1Node := node "node-z" "0Ki".

Definition empty_cluster : KubernetesMemoryAnalyzer :=
  analyzer [node_c; node_z] [("node-z", node_metrics_json "5Mi")] [] [] [].

Definition zeros (n : nat) : string :=
  string_of_list_ascii (repeat "0"%char n).

Definition huge_cluster : KubernetesMemoryAnalyzer :=
  analyzer [node_a] [("node-a", node_metrics_json ("1" ++ zeros 400 ++ "M"))]
    [] [] [].

Definition ones (n : nat) : string :=
  string_of_list_ascii (repeat "1"%char n).



End Demo.

(** ** Vocabulary of the further statements *)










(** Further sample objects. *)
Module Sample.



(** A node that reports its capacity with the letters of the unit swapped. *)
Definition node_k : V1Node := Demo.node "node-k" "2048000iK".

End Sample.

(** * Properties *)

Import Py.

(** ** The built-ins on values of the interpreter *)

Example match_quantity_values :
  match_quantity "12ab" = Some ("12", Some "ab")
  /\ match_quantity ("500" ++ newline) = Some ("500", None)
  /\ match_quantity ("500" ++ newline ++ newline) = None
  /\ match_quantity "1_0" = None
  /\ match_quantity " 12" = None
  /\ match_quantity "" = None.
Proof. repeat split; reflexivity. Qed.

Example int_of_str_values :
  int_of_str " 12 " = Return 12
  /\ int_of_str "-5" = Return (-5)
  /\ int_of_str "+1_0" = Return 10
  /\ int_of_str "0012" = Return 12
  /\ int_of_str "1__0"
     = Raise (Exception ValueError "invalid literal for int() with base 10: 1__0")
  /\ int_of_str "+ 1"
     = Raise (Exception ValueError "invalid literal for int() with base 10: + 1")
  /\ int_of_str ""
     = Raise (Exception ValueError "invalid literal for int() with base 10: ").
Proof. repeat split; reflexivity. Qed.

Example rstrip_values :
  rstrip (in_chars "Ki") "16384Ki" = "16384"
  /\ rstrip (in_chars "Ki") "16Gi" = "16G"
  /\ rstrip (in_chars "Ki") "12iK" = "12"
  /\ rstrip (in_chars "Ki") "KiKi" = ""
  /\ rstrip (in_chars "Ki") ("12Ki" ++ newline) = "12Ki" ++ newline.
Proof. repeat split; reflexivity. Qed.

Example int_truediv_values :
  int_truediv 1 3 = Return (S754_finite false 6004799503160661 (-54))
  /\ int_truediv (10 ^ 30) 7 = Return (S754_finite false 8120488408686859 44)
  /\ int_truediv 1 1024 = Return two_pow_minus_10
  /\ int_truediv 0 (-5) = Return (S754_zero true)
  /\ int_truediv (10 ^ 400) 1024
     = Raise (Exception OverflowError
                "integer division result too large for a float").
Proof. repeat split; vm_compute; reflexivity. Qed.

Example float_of_int_values :
  float_of_int (2 ^ 63 - 1) = Return (S754_finite false 4503599627370496 11)
  /\ float_of_int (2 ^ 1024 - 2 ^ 970 - 1)
     = Return (S754_finite false 9007199254740991 971)
  /\ float_of_int (2 ^ 1024 - 2 ^ 970)
     = Raise (Exception OverflowError "int too large to convert to float").
Proof. repeat split; vm_compute; reflexivity. Qed.

Example format_values :
  format_comma 1234567 = "1,234,567"
  /\ format_comma (-1234) = "-1,234"
  /\ format_comma 100100 = "100,100"
  /\ format_comma 0 = "0"
  /\ (x <- int_truediv 2675 1000 ;; Return (format_2f x))%result = Return "2.67"
  /\ (x <- int_truediv 999995 1000 ;; Return (format_2f x))%result
     = Return "1000.00"
  /\ (x <- int_truediv 15 1000 ;; Return (format_2f x))%result = Return "0.01"
  /\ (x <- int_truediv (-1) 1000 ;; Return (format_2f x))%result = Return "-0.00"
  /\ (x <- int_truediv 15000001 1000000 ;; ceil_float x)%result = Return 16
  /\ (x <- int_truediv (-3) 2 ;; ceil_float x)%result = Return (-1).
Proof. repeat split; vm_compute; reflexivity. Qed.

(** ** Floats: numbers below 2^53 *)

Lemma digits2_pos_iter_xO k p :
  Zpos (digits2_pos (Pos.iter xO p k)) = Zpos (digits2_pos p) + Zpos k.
Proof.
  revert p. induction k using Pos.peano_ind; intros p.
  - simpl. lia.
  - rewrite Pos.iter_succ. simpl. rewrite Pos2Z.inj_succ, IHk. lia.
Qed.

Lemma Zpos_iter_xO k p : Zpos (Pos.iter xO p k) = Zpos p * 2 ^ Zpos k.
Proof.
  revert p. induction k using Pos.peano_ind; intros p.
  - simpl. lia.
  - rewrite Pos.iter_succ, Pos2Z.inj_xO, IHk, Pos2Z.inj_succ, Z.pow_succ_r by lia. lia.
Qed.

Lemma digits2_pos_bounds p :
  2 ^ (Zpos (digits2_pos p) - 1) <= Zpos p < 2 ^ Zpos (digits2_pos p).
Proof.
  induction p; simpl digits2_pos; rewrite ?Pos2Z.inj_succ.
  - replace (Z.succ (Z.pos (digits2_pos p)) - 1) with (Z.succ (Zpos (digits2_pos p) - 1)) by lia.
    rewrite !Z.pow_succ_r by lia. lia.
  - replace (Z.succ (Z.pos (digits2_pos p)) - 1) with (Z.succ (Zpos (digits2_pos p) - 1)) by lia.
    rewrite !Z.pow_succ_r by lia. lia.
  - simpl. lia.
Qed.


Lemma fexp_eq e : fexp prec emax e = Z.max (e - 53) (-1074).
Proof. reflexivity. Qed.

Lemma shr_fexp_canonical m e :
  Zpos (digits2_pos m) = 53 -> -1074 <= e ->
  shr_fexp prec emax (Zpos m) e loc_Exact
  = ({| shr_m := Zpos m; shr_r := false; shr_s := false |}, e).
Proof.
  intros Hd He. unfold shr_fexp.
  change (Zdigits2 (Zpos m)) with (Zpos (digits2_pos m)).
  rewrite Hd, fexp_eq.
  replace (Z.max (53 + e - 53) (-1074) - e) with 0 by lia.
  reflexivity.
Qed.

(** A mantissa of 53 bits with an exponent in range is left as it is. *)
Lemma binary_round_aux_canonical s m e :
  Zpos (digits2_pos m) = 53 -> -1074 <= e <= 971 ->
  binary_round_aux prec emax s (Zpos m) e loc_Exact = S754_finite s m e.
Proof.
  intros Hd He. unfold binary_round_aux.
  rewrite shr_fexp_canonical by lia.
  cbn [shr_m loc_of_shr_record round_nearest_even].
  rewrite shr_fexp_canonical by lia.
  cbn [shr_m].
  change (Z.sub emax prec) with 971.
  destruct (Z.leb_spec e 971); [reflexivity | lia].
Qed.

Lemma float_of_int_small p :
  Zpos p < 2 ^ 53 ->
  exists m, Zpos (digits2_pos m) = 53
    /\ Zpos m = Zpos p * 2 ^ (53 - Zpos (digits2_pos p))
    /\ float_of_int (Zpos p) = Return (S754_finite false m (Zpos (digits2_pos p) - 53)).
Proof.
  intros Hp.
  pose proof (digits2_pos_bounds p) as [Hlo Hhi].
  assert (Hd : Zpos (digits2_pos p) <= 53).
  { destruct (Z.le_gt_cases (Zpos (digits2_pos p)) 53) as [|H]; [assumption|].
    assert (2 ^ 53 <= 2 ^ (Zpos (digits2_pos p) - 1)) by (apply Z.pow_le_mono_r; lia). lia. }
  unfold float_of_int, binary_normalize, binary_round.
  rewrite fexp_eq. unfold shl_align.
  replace (Z.max (Zpos (digits2_pos p) + 0 - 53) (-1074)) with (Zpos (digits2_pos p) - 53) by lia.
  destruct (Zpos (digits2_pos p) - 53 - 0) as [|k|k] eqn:Hk; try lia.
  - exists p. split; [lia|]. split.
    + replace (53 - Zpos (digits2_pos p)) with 0 by lia. lia.
    + rewrite binary_round_aux_canonical by lia.
      replace (Zpos (digits2_pos p) - 53) with 0 by lia. reflexivity.
  - exists (Pos.iter xO p k). 
    assert (Hdk : Zpos (digits2_pos (Pos.iter xO p k)) = 53)
      by (rewrite digits2_pos_iter_xO; lia).
    split; [assumption|]. split.
    + rewrite Zpos_iter_xO. f_equal. f_equal. lia.
    + rewrite binary_round_aux_canonical by (try assumption; lia). reflexivity.
Qed.

Lemma float_mul_two_pow_minus_10 m e :
  Zpos (digits2_pos m) = 53 -> -52 <= e <= 0 ->
  float_mul (S754_finite false m e) two_pow_minus_10
  = S754_finite false m (e - 10).
Proof.
  intros Hd He. unfold float_mul, two_pow_minus_10, SFmul.
  cbn [xorb].
  assert (Hm : (m * 4503599627370496 = Pos.iter xO m 52)%positive)
    by (rewrite Pos.mul_comm; reflexivity).
  rewrite Hm. unfold binary_round_aux at 1.
  unfold shr_fexp at 1.
  change (Zdigits2 (Zpos (Pos.iter xO m 52)))
    with (Zpos (digits2_pos (Pos.iter xO m 52))).
  rewrite digits2_pos_iter_xO, Hd, fexp_eq.
  replace (Z.max (53 + 52 + (e + -62) - 53) (-1074) - (e + -62)) with 52 by lia.
  cbn [shr_record_of_loc shr].
  replace (iter_pos shr_1 52
             {| shr_m := Zpos (Pos.iter xO m 52); shr_r := false; shr_s := false |})
    with {| shr_m := Zpos m; shr_r := false; shr_s := false |} by reflexivity.
  cbn [shr_m loc_of_shr_record round_nearest_even].
  rewrite shr_fexp_canonical by lia.
  cbn [shr_m]. change (Z.sub emax prec) with 971.
  replace (e + -62 + 52) with (e - 10) by lia.
  destruct (Z.leb_spec (e - 10) 971); [reflexivity | lia].
Qed.

(** Below 2^53 the product with [1 / 1024] is exact and its integer part is
    the quotient by 1024. *)
Lemma int_mul_ki_small n :
  0 <= n < 2 ^ 53 ->
  (product <- int_mul n (PyFloat two_pow_minus_10) ;; int_of_number product)%result
  = Return (n / 1024).
Proof.
  intros Hn. destruct n as [|p|p]; try lia.
  - reflexivity.
  - destruct (float_of_int_small p) as (m & Hd & Hm & Hf); [lia|].
    pose proof (digits2_pos_bounds p) as [Hlo Hhi].
    assert (Hdp : Zpos (digits2_pos p) <= 53).
    { destruct (Z.le_gt_cases (Zpos (digits2_pos p)) 53) as [|H]; [assumption|].
      assert (2 ^ 53 <= 2 ^ (Zpos (digits2_pos p) - 1)) by (apply Z.pow_le_mono_r; lia).
      lia. }
    unfold int_mul. rewrite Hf. cbn [rbind].
    rewrite float_mul_two_pow_minus_10 by (try assumption; lia).
    cbn [int_of_number int_of_float]. f_equal.
    set (d := Zpos (digits2_pos p)) in *.
    rewrite Hm.
    rewrite <- Z.shiftr_opp_r.
    rewrite Z.shiftr_div_pow2 by lia.
    replace (- (d - 53 - 10)) with ((53 - d) + 10) by lia.
    rewrite Z.pow_add_r by lia.
    change (2 ^ 10) with 1024.
    assert (0 < 2 ^ (53 - d)) by (apply Z.pow_pos_nonneg; lia).
    rewrite (Z.mul_comm (2 ^ (53 - d)) 1024).
    rewrite Z.div_mul_cancel_r by lia. reflexivity.
Qed.

Lemma shr_1_nonneg mrs : 0 <= shr_m mrs -> 0 <= shr_m (shr_1 mrs).
Proof.
  destruct mrs as [m r s]. simpl.
  destruct m as [|[p|p|]|[p|p|]]; simpl; lia.
Qed.

Lemma iter_pos_invariant {A} (P : A -> Prop) (f : A -> A) :
  (forall a, P a -> P (f a)) -> forall n a, P a -> P (iter_pos f n a).
Proof.
  intros Hf. induction n; intros a Ha; simpl; auto.
Qed.

Lemma shr_nonneg mrs e n : 0 <= shr_m mrs -> 0 <= shr_m (fst (shr mrs e n)).
Proof.
  intros H. destruct n; simpl; try assumption.
  apply (iter_pos_invariant (fun r => 0 <= shr_m r)); [apply shr_1_nonneg | assumption].
Qed.

Lemma shr_fexp_nonneg m e l :
  0 <= m -> 0 <= shr_m (fst (shr_fexp prec emax m e l)).
Proof.
  intros H. unfold shr_fexp. apply shr_nonneg.
  destruct l as [|[| |]]; assumption.
Qed.

Lemma round_nearest_even_nonneg m l : 0 <= m -> 0 <= round_nearest_even m l.
Proof.
  intros H. destruct l as [|[| |]]; simpl; try lia.
  destruct (Z.even m); lia.
Qed.

Lemma binary_round_aux_not_nan s m e l :
  0 <= m -> binary_round_aux prec emax s m e l <> S754_nan.
Proof.
  intros H. unfold binary_round_aux.
  pose proof (shr_fexp_nonneg m e l H) as H1.
  destruct (shr_fexp prec emax m e l) as [mrs' e'].
  pose proof (shr_fexp_nonneg (round_nearest_even (shr_m mrs') (loc_of_shr_record mrs'))
                e' loc_Exact (round_nearest_even_nonneg _ _ H1)) as H2.
  destruct (shr_fexp prec emax _ e' loc_Exact) as [mrs'' e''].
  simpl in H2. destruct (shr_m mrs'') as [|q|q]; try lia; try discriminate.
  destruct (e'' <=? _); discriminate.
Qed.

Lemma SFdiv_finite_not_nan s1 m1 e1 s2 m2 e2 :
  SFdiv prec emax (S754_finite s1 m1 e1) (S754_finite s2 m2 e2) <> S754_nan.
Proof.
  unfold SFdiv, SFdiv_core_binary.
  set (s := Z.sub (Z.sub e1 e2) _).
  set (m' := match s with Z0 => _ | Zpos _ => _ | Zneg _ => _ end).
  assert (Hm' : 0 <= m').
  { subst m'. destruct s; try lia. apply Z.shiftl_nonneg. lia. }
  pose proof (Z.div_eucl_eq m' (Zpos m2) ltac:(lia)) as Heq.
  pose proof (Z.mod_pos_bound m' (Zpos m2) ltac:(lia)) as Hmod.
  unfold Z.modulo in Hmod.
  destruct (Z.div_eucl m' (Zpos m2)) as [q r].
  apply binary_round_aux_not_nan. nia.
Qed.

(** True division of two [int]s yields zero or a finite float. *)
Lemma int_truediv_finite a b x :
  int_truediv a b = Return x -> exists z, ceil_float x = Return z.
Proof.
  unfold int_truediv.
  destruct (b =? 0); [discriminate|].
  destruct (a =? 0).
  - intros [= <-]. eexists; reflexivity.
  - pose proof (SFdiv_finite_not_nan (a <? 0) (Z.to_pos (Z.abs a)) 0
                  (b <? 0) (Z.to_pos (Z.abs b)) 0) as Hn.
    destruct (SFdiv _ _ _ _) as [s|s| |s m e]; try discriminate; try congruence;
      intros [= <-]; eexists; reflexivity.
Qed.

(** ** Strings *)

Lemma span_spec p s a b :
  span p s = (a, b) -> s = a ++ b /\ all_chars p a = true /\ starts_outside p b.
Proof.
  revert a b. induction s as [|c r IH]; intros a b; simpl.
  - intros [= <- <-]. repeat split.
  - destruct (p c) eqn:Hc.
    + destruct (span p r) as [a' b'] eqn:Hs. intros [= <- <-].
      destruct (IH a' b' eq_refl) as (-> & Ha & Hb).
      simpl. rewrite Hc, Ha. repeat split. assumption.
    + intros [= <- <-]. simpl. repeat split. assumption.
Qed.

Lemma span_app p a b :
  all_chars p a = true -> starts_outside p b -> span p (a ++ b) = (a, b).
Proof.
  induction a as [|c r IH]; simpl; intros Ha Hb.
  - destruct b as [|c b]; [reflexivity|]. simpl in *. rewrite Hb. reflexivity.
  - apply andb_true_iff in Ha as [Hc Hr]. rewrite Hc, IH by assumption. reflexivity.
Qed.

Ltac ranges :=
  unfold is_digit, is_ascii_letter, is_space, in_range in *;
  repeat match goal with
    | H : (_ && _)%bool = true |- _ => apply andb_true_iff in H; destruct H
    | H : (_ || _)%bool = true |- _ => apply orb_true_iff in H; destruct H
    | H : N.leb _ _ = true |- _ => apply N.leb_le in H
    | H : N.eqb _ _ = true |- _ => apply N.eqb_eq in H
    end.

Lemma letter_not_digit c : is_ascii_letter c = true -> is_digit c = false.
Proof.
  intros H. destruct (is_digit c) eqn:Hd; [|reflexivity].
  ranges; lia.
Qed.

Lemma digit_not_space c : is_digit c = true -> is_space c = false.
Proof.
  intros H. destruct (is_space c) eqn:Hd; [|reflexivity].
  ranges; lia.
Qed.

Lemma string_app_empty_r (s : string) : s ++ "" = s.
Proof. induction s; simpl; congruence. Qed.

Lemma match_quantity_complete value number unit :
  quantity_pattern value number unit ->
  match_quantity value = Some (number, optional_group unit).
Proof.
  intros (Hne & Hd & Hl & Hv). unfold match_quantity.
  assert (Hstart : forall tail, tail = "" \/ tail = newline ->
            starts_outside is_digit (unit ++ tail)).
  { intros tail Ht. destruct unit as [|c u]; simpl in *.
    - destruct Ht as [->| ->]; simpl; auto.
    - apply andb_true_iff in Hl as [Hc _]. apply letter_not_digit; assumption. }
  assert (Hval : exists tail, (tail = "" \/ tail = newline) /\ value = number ++ unit ++ tail).
  { destruct Hv as [-> | ->]; [exists ""|exists newline]; split; auto.
    rewrite string_app_empty_r. reflexivity. }
  destruct Hval as (tail & Ht & ->).
  rewrite (span_app is_digit number (unit ++ tail)) by auto.
  rewrite (span_app is_ascii_letter unit tail); [| assumption |].
  - destruct number; [congruence|].
    destruct Ht as [-> | ->]; reflexivity.
  - destruct Ht as [-> | ->]; simpl; auto.
Qed.

Lemma match_quantity_sound value number g :
  match_quantity value = Some (number, g) ->
  exists unit, g = optional_group unit /\ quantity_pattern value number unit.
Proof.
  unfold match_quantity.
  destruct (span is_digit value) as [ds rest] eqn:H1.
  destruct (span is_ascii_letter rest) as [u tail] eqn:H2.
  apply span_spec in H1 as (-> & Hd & _).
  apply span_spec in H2 as (-> & Hl & _).
  destruct ds as [|c ds]; [discriminate|].
  destruct (String.eqb tail "" || String.eqb tail newline)%bool eqn:Ht; [|discriminate].
  intros [= <- <-]. exists u. split; [reflexivity|].
  repeat split; try assumption; try discriminate.
  apply orb_true_iff in Ht as [Ht|Ht]; apply String.eqb_eq in Ht; subst tail.
  - left. rewrite string_app_empty_r. reflexivity.
  - right. reflexivity.
Qed.

Lemma lstrip_digits s :
  starts_outside is_space s -> lstrip is_space s = s.
Proof. destruct s; simpl; [reflexivity|]. intros ->. reflexivity. Qed.

Lemma rstrip_digits s :
  all_chars is_digit s = true -> rstrip is_space s = s.
Proof.
  induction s as [|c r IH]; simpl; [reflexivity|].
  intros H. apply andb_true_iff in H as [Hc Hr]. rewrite IH by assumption.
  destruct r; [|reflexivity]. rewrite digit_not_space by assumption. reflexivity.
Qed.

Lemma literal_digits_digits s :
  all_chars is_digit s = true -> literal_digits false s = Some s.
Proof.
  induction s as [|c r IH]; simpl; [reflexivity|].
  intros H. apply andb_true_iff in H as [Hc Hr]. rewrite Hc, IH by assumption.
  reflexivity.
Qed.

Lemma int_of_str_digits s :
  s <> "" -> all_chars is_digit s = true ->
  (String.length s <= int_max_str_digits)%nat ->
  int_of_str s = Return (int_of_digits s).
Proof.
  intros Hne Hd Hlen. unfold int_of_str.
  rewrite lstrip_digits, rstrip_digits; try assumption.
  2:{ destruct s; simpl in *; [trivial|]. apply andb_true_iff in Hd as [Hc _].
      apply digit_not_space; assumption. }
  destruct s as [|c r]; [congruence|].
  simpl in Hd. apply andb_true_iff in Hd as [Hc Hr].
  assert (Hsign : (let '(negative, body) :=
             match String c r with
             | String "-" r0 => (true, r0)
             | String "+" r0 => (false, r0)
             | _ => (false, String c r)
             end in (negative, body)) = (false, String c r)).
  { destruct c as [[] [] [] [] [] [] [] []]; try reflexivity; discriminate Hc. }
  destruct (match String c r with
             | String "-" r0 => (true, r0)
             | String "+" r0 => (false, r0)
             | _ => (false, String c r)
             end) as [negative body].
  injection Hsign as -> ->.
  cbn [literal_digits]. rewrite Hc, literal_digits_digits by assumption.
  cbn [option_map].
  assert (He : exceeds_int_max_str_digits (String.length (String c r)) = false).
  { unfold exceeds_int_max_str_digits.
    apply andb_false_iff. right. apply Nat.ltb_ge. assumption. }
  rewrite He. reflexivity.
Qed.

(** ** The quantity parser *)

Lemma units_value :
  units = Return [("Ki", PyFloat two_pow_minus_10); ("M", PyInt 1);
                  ("Mi", PyInt 1); ("G", PyInt 1024); ("Gi", PyInt 1024)].
Proof. reflexivity. Qed.

Lemma int_of_digits_from_nonneg s acc :
  all_chars is_digit s = true -> 0 <= acc -> 0 <= int_of_digits_from acc s.
Proof.
  revert acc. induction s as [|c r IH]; cbn [int_of_digits_from all_chars];
    intros acc Hd Hacc; [assumption|].
  apply andb_true_iff in Hd as [Hc Hr]. apply IH; [assumption|].
  unfold digit_value. clear IH Hr. ranges. lia.
Qed.

Lemma int_of_digits_nonneg s :
  all_chars is_digit s = true -> 0 <= int_of_digits s.
Proof. intros H. apply int_of_digits_from_nonneg; [assumption | lia]. Qed.


(** On a string the pattern matches, within the length [int()] accepts,
    parsing comes down to the look-up of the unit and the product. *)
Lemma parse_memory_matched value number unit :
  quantity_pattern value number unit ->
  (String.length number <= int_max_str_digits)%nat ->
  parse_memory value
  = match dict_get [("Ki", PyFloat two_pow_minus_10); ("M", PyInt 1);
                    ("Mi", PyInt 1); ("G", PyInt 1024); ("Gi", PyInt 1024)]
            (unit_or_default unit) with
    | None => Raise (unsupported_memory_unit (unit_or_default unit))
    | Some factor =>
        (product <- int_mul (int_of_digits number) factor ;;
         int_of_number product)%result
    end.
Proof.
  intros Hp Hlen. pose proof Hp as (Hne & Hd & _).
  unfold parse_memory. rewrite units_value. cbn [rbind].
  rewrite (match_quantity_complete _ _ _ Hp).
  rewrite int_of_str_digits by assumption. cbn [rbind].
  destruct unit; reflexivity.
Qed.


Lemma pattern_with_unit number unit :
  number <> "" -> all_chars is_digit number = true ->
  all_chars is_ascii_letter unit = true ->
  quantity_pattern (number ++ unit) number unit.
Proof. intros. repeat split; auto. Qed.

(** C3, as amended: for a run of at most 4300 digits followed by a unit of
    the table or by nothing, [parse_memory] returns the number for [M],
    [Mi] and no unit, the number times 1024 for [G] and [Gi], and for [Ki]
    the quotient of the number by 1024 when the number is below 2^53. *)
Theorem parse_memory_unit_table (number : string) :
  number <> "" ->
  all_chars is_digit number = true ->
  (String.length number <= int_max_str_digits)%nat ->
  parse_memory (number ++ "M") = Return (int_of_digits number)
  /\ parse_memory (number ++ "Mi") = Return (int_of_digits number)
  /\ parse_memory (number ++ "G") = Return (int_of_digits number * 1024)
  /\ parse_memory (number ++ "Gi") = Return (int_of_digits number * 1024)
  /\ parse_memory number = Return (int_of_digits number)
  /\ (int_of_digits number < 2 ^ 53 ->
      parse_memory (number ++ "Ki") = Return (int_of_digits number / 1024))
  /\ parse_memory "6374M" = Return 6374
  /\ parse_memory "1024Ki" = Return 1
  /\ parse_memory "2G" = Return 2048
  /\ parse_memory "500" = Return 500.
Proof.
  intros Hne Hd Hlen.
  assert (Hu : forall unit, all_chars is_ascii_letter unit = true ->
             parse_memory (number ++ unit)
             = match dict_get [("Ki", PyFloat two_pow_minus_10); ("M", PyInt 1);
                               ("Mi", PyInt 1); ("G", PyInt 1024);
                               ("Gi", PyInt 1024)] (unit_or_default unit) with
               | None => Raise (unsupported_memory_unit (unit_or_default unit))
               | Some factor =>
                   (product <- int_mul (int_of_digits number) factor ;;
                    int_of_number product)%result
               end).
  { intros unit Hl. apply parse_memory_matched; [|assumption].
    apply pattern_with_unit; assumption. }
  repeat split; try reflexivity.
  - rewrite Hu by reflexivity. cbn. rewrite Z.mul_1_r. reflexivity.
  - rewrite Hu by reflexivity. cbn. rewrite Z.mul_1_r. reflexivity.
  - rewrite Hu by reflexivity. reflexivity.
  - rewrite Hu by reflexivity. reflexivity.
  - rewrite <- (string_app_empty_r number) at 1. rewrite Hu by reflexivity.
    cbn. rewrite Z.mul_1_r. reflexivity.
  - intros Hsmall. rewrite Hu by reflexivity.
    cbn [unit_or_default dict_get String.eqb Ascii.eqb Bool.eqb].
    apply int_mul_ki_small. split; [apply int_of_digits_nonneg; assumption | assumption].
Qed.

Lemma parse_memory_unit_table_witness :
  "1048576" <> ""
  /\ all_chars is_digit "1048576" = true
  /\ (String.length "1048576" <= int_max_str_digits)%nat
  /\ int_of_digits "1048576" < 2 ^ 53
  /\ parse_memory ("1048576" ++ "Ki") = Return (int_of_digits "1048576" / 1024).
Proof.
  assert (H1 : "1048576" <> "") by discriminate.
  assert (H2 : all_chars is_digit "1048576" = true) by reflexivity.
  assert (H3 : (String.length "1048576" <= int_max_str_digits)%nat)
    by (apply Nat.leb_le; reflexivity).
  assert (H4 : int_of_digits "1048576" < 2 ^ 53) by reflexivity.
  refine (conj H1 (conj H2 (conj H3 (conj H4 _)))).
  exact (proj1 (proj2 (proj2 (proj2 (proj2 (proj2
           (parse_memory_unit_table "1048576" H1 H2 H3)))))) H4).
Defined.

(** C3 as stated fails: 2^63 - 1 Ki parses to 2^53 MiB, one above the
    quotient by 1024, and a run of 4301 digits is refused by [int()]. *)
Lemma parse_memory_Ki_beyond_2_53 :
  parse_memory "9223372036854775807Ki" = Return 9007199254740992
  /\ int_of_digits "9223372036854775807" / 1024 = 9007199254740991
  /\ parse_memory (Demo.ones 4301 ++ "M") = Raise (exceeds_the_limit 4301).
Proof. repeat split; vm_compute; reflexivity. Qed.

Lemma unit_names_cases u :
  in_list u unit_names = true ->
  u = "Ki" \/ u = "M" \/ u = "Mi" \/ u = "G" \/ u = "Gi".
Proof.
  unfold in_list, unit_names. cbn [existsb]. intros H.
  repeat (apply orb_true_iff in H as [H|H];
          [apply String.eqb_eq in H; subst; auto 6|]).
  discriminate.
Qed.




(** ** The metrics fetcher *)

Lemma get_memory_utilization_eq self resource_type namespace name out :
  get_memory_utilization self resource_type namespace name out
  = match fetch_memory self resource_type namespace name with
    | Return v => (Return (Some v), out)
    | Raise e =>
        (Return None, (out ++ [error_fetching_memory resource_type name e])%list)
    end.
Proof.
  unfold get_memory_utilization, try_except, bind, lift, ret, console_print.
  destruct (fetch_memory self resource_type namespace name); reflexivity.
Qed.



Lemma sum_parsed_mapM cs acc :
  sum_parsed acc cs
  = (usages <- mapM parse_memory (map container_memory cs) ;;
     Return (acc + list_sum usages))%result.
Proof.
  revert acc. induction cs as [|c cs IH]; intros acc; cbn [sum_parsed map mapM rbind].
  - cbn. rewrite Z.add_0_r. reflexivity.
  - unfold container_memory at 1.
    destruct (parse_memory (memory (container_usage c))) as [v|e]; cbn [rbind];
      [|reflexivity].
    rewrite IH.
    destruct (mapM parse_memory (map container_memory cs)) as [vs|e]; cbn [rbind];
      [|reflexivity].
    cbn [list_sum fold_right]. fold (list_sum vs). rewrite Z.add_assoc. reflexivity.
Qed.

(** C7: the usage reported for a pod is the sum of the parsed memory of
    the containers of the metrics response, and is reported when every
    one of them parses; [100M] and [200M] give 300. *)
Theorem pod_usage_is_sum_of_containers self namespace name metrics pod_metrics out :
  get_namespaced_custom_object (metrics_api self)
    "metrics.k8s.io" "v1beta1" namespace "pods" name = Return metrics ->
  Pydantic.PodMetrics_init metrics = Return pod_metrics ->
  (forall usages,
      mapM parse_memory (map container_memory (containers pod_metrics))
      = Return usages ->
      get_memory_utilization self "pod" namespace name out
      = (Return (Some (list_sum usages)), out))
  /\ (forall total out',
        get_memory_utilization self "pod" namespace name out
        = (Return (Some total), out') ->
        exists usages,
          mapM parse_memory (map container_memory (containers pod_metrics))
          = Return usages
          /\ total = list_sum usages)
  /\ (map container_memory (containers pod_metrics) = ["100M"; "200M"] ->
      get_memory_utilization self "pod" namespace name out
      = (Return (Some 300), out)).
Proof.
  intros Hget Hinit.
  assert (Hfetch : fetch_memory self "pod" namespace name
                   = (usages <- mapM parse_memory
                                  (map container_memory (containers pod_metrics)) ;;
                      Return (list_sum usages))%result).
  { unfold fetch_memory. cbn [String.eqb Ascii.eqb Bool.eqb].
    rewrite Hget. cbn [rbind]. rewrite Hinit. cbn [rbind].
    rewrite sum_parsed_mapM. reflexivity. }
  rewrite get_memory_utilization_eq, Hfetch. repeat split.
  - intros usages ->. reflexivity.
  - intros total out'.
    destruct (mapM parse_memory _) as [usages|e]; cbn [rbind]; [|discriminate].
    intros [= <- <-]. eauto.
  - intros ->. reflexivity.
Qed.

Lemma pod_usage_is_sum_of_containers_witness :
  get_namespaced_custom_object (metrics_api Demo.cluster)
    "metrics.k8s.io" "v1beta1" (Some "default") "pods" "p2"
  = Return (Demo.pod_metrics_json ["100M"; "20M"])
  /\ (exists pod_metrics,
         Pydantic.PodMetrics_init (Demo.pod_metrics_json ["100M"; "20M"])
         = Return pod_metrics
         /\ mapM parse_memory (map container_memory (containers pod_metrics))
            = Return [100; 20])
  /\ get_memory_utilization Demo.cluster "pod" (Some "default") "p2" []
     = (Return (Some (list_sum [100; 20])), []).
Proof.
  assert (H1 : get_namespaced_custom_object (metrics_api Demo.cluster)
                 "metrics.k8s.io" "v1beta1" (Some "default") "pods" "p2"
               = Return (Demo.pod_metrics_json ["100M"; "20M"])) by reflexivity.
  destruct (Pydantic.PodMetrics_init (Demo.pod_metrics_json ["100M"; "20M"]))
    as [pm|e] eqn:H2; [|discriminate H2].
  assert (H3 : mapM parse_memory (map container_memory (containers pm))
               = Return [100; 20]).
  { vm_compute in H2. injection H2 as <-. reflexivity. }
  refine (conj H1 (conj (ex_intro _ pm (conj eq_refl H3)) _)).
  exact (proj1 (pod_usage_is_sum_of_containers Demo.cluster (Some "default") "p2"
                  _ pm [] H1 H2) [100; 20] H3).
Defined.

(** ** The controller resolver *)









(** ** The pod level *)











(** ** The node level *)

Lemma memory_capacity_of_finite node c :
  memory_capacity_of node = Return c -> exists z, ceil_float c = Return z.
Proof.
  unfold memory_capacity_of.
  destruct (capacity node) as [d|]; cbn [rbind]; [|discriminate].
  destruct (dict_get d "memory") as [q|]; cbn [rbind]; [|discriminate].
  destruct (int_of_str _) as [kib|e]; cbn [rbind]; [|discriminate].
  apply int_truediv_finite.
Qed.

Lemma analyze_nodes_body_eq self node table_rows high_usage_nodes out :
  analyze_nodes_body self node (table_rows, high_usage_nodes) out
  = match memory_capacity_of node with
    | Raise e => (Raise e, out)
    | Return _ =>
        match node_usage self node with
        | Raise e =>
            (Return (table_rows, high_usage_nodes),
             (out ++ [error_fetching_memory "node"
                        (name (K8s.node_metadata node)) e])%list)
        | Return u =>
            match node_row node u with
            | Raise e => (Raise e, out)
            | Return (row, high) =>
                (Return ((table_rows ++ [row])%list,
                         if high
                         then (high_usage_nodes ++ [name (K8s.node_metadata node)])%list
                         else high_usage_nodes),
                 out)
            end
        end
    end.
Proof.
  unfold analyze_nodes_body, node_row, node_usage, bind, lift.
  destruct (memory_capacity_of node) as [c|e]; [|reflexivity].
  rewrite get_memory_utilization_eq.
  destruct (fetch_memory self "node" None _) as [u|e]; [|reflexivity].
  cbn [rbind]. destruct (utilization u c) as [p|e]; [|reflexivity].
  cbn [rbind]. destruct (ceil_float c) as [z|e]; reflexivity.
Qed.









(** C6, as amended: for a node whose capacity reads and is not zero and
    whose fetched usage converts to a float, the utilization is the
    binary64 value of (usage / capacity) * 100; the row of the node shows
    it with two decimals, its status is high usage exactly when the
    utilization is above 80, and exactly then the node joins the
    high-usage nodes.  1000 MiB with 801 MiB shows 80.10 and high usage,
    with 800 MiB it shows 80.00 and OK. *)
Theorem node_utilization_and_status self node table_rows high_usage_nodes out
    memory_capacity used_memory used :
  memory_capacity_of node = Return memory_capacity ->
  node_usage self node = Return used_memory ->
  (forall s, memory_capacity <> S754_zero s) ->
  float_of_int used_memory = Return used ->
  (exists capacity_mi,
      ceil_float memory_capacity = Return capacity_mi
      /\ let utilization_percentage :=
           float_mul (SFdiv prec emax used memory_capacity) (float_literal 100) in
         let high := float_gt utilization_percentage (float_literal 80) in
         analyze_nodes_body self node (table_rows, high_usage_nodes) out
         = (Return
              ((table_rows ++
                  [[Some (name (K8s.node_metadata node));
                    Some (format_comma capacity_mi);
                    Some (format_comma used_memory);
                    Some (format_2f utilization_percentage);
                    Some (if high then high_usage_status else "OK")]])%list,
               if high
               then (high_usage_nodes ++ [name (K8s.node_metadata node)])%list
               else high_usage_nodes),
            out))
  /\ node_row Demo.node_a 801
     = Return ([Some "node-a"; Some "1,000"; Some "801"; Some "80.10";
                Some high_usage_status], true)
  /\ node_row Demo.node_b 800
     = Return ([Some "node-b"; Some "1,000"; Some "800"; Some "80.00";
                Some "OK"], false).
Proof.
  intros Hcap Huse Hnz Hconv. split; [|split; reflexivity].
  destruct (memory_capacity_of_finite _ _ Hcap) as [z Hz].
  exists z. split; [assumption|]. cbn zeta.
  rewrite analyze_nodes_body_eq, Hcap, Huse.
  unfold node_row. rewrite Hcap. cbn [rbind].
  unfold utilization. rewrite Hconv. cbn [rbind].
  unfold float_truediv.
  destruct memory_capacity as [s|s| |s m e];
    try (exfalso; apply (Hnz s); reflexivity);
    cbn [rbind]; rewrite Hz; cbn [rbind]; unfold above_80;
    destruct (float_gt _ _); reflexivity.
Qed.

Lemma node_utilization_and_status_witness :
  let memory_capacity := S754_finite false 8796093022208000 (-43) in
  let used := S754_finite false 7045670510788608 (-43) in
  memory_capacity_of Demo.node_a = Return memory_capacity
  /\ node_usage Demo.cluster Demo.node_a = Return 801
  /\ (forall s, memory_capacity <> S754_zero s)
  /\ float_of_int 801 = Return used
  /\ exists capacity_mi,
      ceil_float memory_capacity = Return capacity_mi
      /\ let utilization_percentage :=
           float_mul (SFdiv prec emax used memory_capacity) (float_literal 100) in
         let high := float_gt utilization_percentage (float_literal 80) in
         analyze_nodes_body Demo.cluster Demo.node_a ([], []) []
         = (Return
              (([] ++
                  [[Some (name (K8s.node_metadata Demo.node_a));
                    Some (format_comma capacity_mi);
                    Some (format_comma 801);
                    Some (format_2f utilization_percentage);
                    Some (if high then high_usage_status else "OK")]])%list,
               if high
               then ([] ++ [name (K8s.node_metadata Demo.node_a)])%list
               else []),
            []).
Proof.
  intros memory_capacity used.
  assert (H1 : memory_capacity_of Demo.node_a = Return memory_capacity)
    by reflexivity.
  assert (H2 : node_usage Demo.cluster Demo.node_a = Return 801) by reflexivity.
  assert (H3 : forall s, memory_capacity <> S754_zero s) by discriminate.
  assert (H4 : float_of_int 801 = Return used) by reflexivity.
  refine (conj H1 (conj H2 (conj H3 (conj H4 _)))).
  exact (proj1 (node_utilization_and_status Demo.cluster Demo.node_a [] [] []
                  memory_capacity 801 used H1 H2 H3 H4)).
Defined.

(** C6 as stated fails: a node that reports a capacity of 0 Ki and a
    usage of 5 MiB has both values retrieved, and the division raises; a
    usage of 10^400 MiB on 1000 MiB, far above 80 percent, does not
    convert to a float.  No row and no status is produced for either.
    And the percentage computed for 801 MiB on 1000 MiB is the float
    5636536408630887 / 2^46, which is above 80.1. *)
Lemma utilization_is_not_always_computed :
  memory_capacity_of Demo.node_z = Return (S754_zero false)
  /\ node_usage Demo.empty_cluster Demo.node_z = Return 5
  /\ analyze_nodes_body Demo.empty_cluster Demo.node_z ([], []) []
     = (Raise (Exception ZeroDivisionError "float division by zero"), [])
  /\ (exists c, memory_capacity_of Demo.node_a = Return c
                /\ ceil_float c = Return 1000)
  /\ node_usage Demo.huge_cluster Demo.node_a = Return (10 ^ 400)
  /\ analyze_nodes_body Demo.huge_cluster Demo.node_a ([], []) []
     = (Raise (Exception OverflowError "int too large to convert to float"), [])
  /\ exit_status (main (Return Demo.huge_cluster) []) = 1
  /\ (c <- memory_capacity_of Demo.node_a ;; utilization 801 c)%result
     = Return (S754_finite false 5636536408630887 (-46))
  /\ 801 * 2 ^ 46 < 5636536408630887 * 10.
Proof.
  repeat split; try (vm_compute; reflexivity).
  eexists. split; vm_compute; reflexivity.
Qed.

(** * Further properties *)

(** ** The quantity parser *)

Lemma parse_memory_of_match value number unit :
  quantity_pattern value number unit ->
  parse_memory value
  = (n <- int_of_str number ;;
     match dict_get [("Ki", PyFloat two_pow_minus_10); ("M", PyInt 1);
                     ("Mi", PyInt 1); ("G", PyInt 1024); ("Gi", PyInt 1024)]
             (unit_or_default unit) with
     | None => Raise (unsupported_memory_unit (unit_or_default unit))
     | Some factor =>
         product <- int_mul n factor ;; int_of_number product
     end)%result.
Proof.
  intros Hp. unfold parse_memory. rewrite units_value. cbn [rbind].
  rewrite (match_quantity_complete _ _ _ Hp).
  destruct (int_of_str number); [|reflexivity]. cbn [rbind].
  destruct unit; reflexivity.
Qed.

(** X1: a line feed that ends a quantity is ignored, whatever the digits
    and the letters before it. *)
Theorem parse_memory_ignores_final_line_feed number unit :
  number <> "" ->
  all_chars is_digit number = true ->
  all_chars is_ascii_letter unit = true ->
  parse_memory (number ++ unit ++ newline) = parse_memory (number ++ unit).
Proof.
  intros Hne Hd Hl.
  rewrite (parse_memory_of_match (number ++ unit ++ newline) number unit)
    by (repeat split; auto).
  rewrite (parse_memory_of_match (number ++ unit) number unit)
    by (repeat split; auto).
  reflexivity.
Qed.

Lemma parse_memory_ignores_final_line_feed_witness :
  "512" <> ""
  /\ all_chars is_digit "512" = true
  /\ all_chars is_ascii_letter "Mi" = true
  /\ parse_memory ("512" ++ "Mi" ++ newline) = parse_memory ("512" ++ "Mi").
Proof.
  assert (H1 : "512" <> "") by discriminate.
  assert (H2 : all_chars is_digit "512" = true) by reflexivity.
  assert (H3 : all_chars is_ascii_letter "Mi" = true) by reflexivity.
  refine (conj H1 (conj H2 (conj H3 _))).
  exact (parse_memory_ignores_final_line_feed "512" "Mi" H1 H2 H3).
Defined.

(** [int()] on a run of digits: the value, unless the run is too long. *)
Lemma int_of_str_digits_cases s :
  s <> "" -> all_chars is_digit s = true ->
  int_of_str s
  = if exceeds_int_max_str_digits (String.length s)
    then Raise (exceeds_the_limit (String.length s))
    else Return (int_of_digits s).
Proof.
  intros Hne Hd. unfold int_of_str.
  rewrite lstrip_digits, rstrip_digits; try assumption.
  2:{ destruct s; simpl in *; [trivial|]. apply andb_true_iff in Hd as [Hc _].
      apply digit_not_space; assumption. }
  destruct s as [|c r]; [congruence|].
  simpl in Hd. apply andb_true_iff in Hd as [Hc Hr].
  assert (Hsign : match String c r with
                  | String "-" r0 => (true, r0)
                  | String "+" r0 => (false, r0)
                  | _ => (false, String c r)
                  end = (false, String c r)).
  { destruct c as [[] [] [] [] [] [] [] []]; try reflexivity; discriminate Hc. }
  rewrite Hsign.
  cbn [literal_digits]. rewrite Hc, literal_digits_digits by assumption.
  reflexivity.
Qed.

(** The sign of a rounded mantissa is the sign given. *)
Lemma binary_round_aux_sign s m e l :
  0 <= m ->
  match binary_round_aux prec emax s m e l with
  | S754_zero s' | S754_infinity s' | S754_finite s' _ _ => s' = s
  | S754_nan => False
  end.
Proof.
  intros H. pose proof (binary_round_aux_not_nan s m e l H) as Hn.
  unfold binary_round_aux in *.
  destruct (shr_fexp prec emax m e l) as [mrs' e'].
  destruct (shr_fexp prec emax _ e' loc_Exact) as [mrs'' e''].
  destruct (shr_m mrs'') as [|q|q]; try reflexivity; [|congruence].
  destruct (e'' <=? _); reflexivity.
Qed.

Lemma float_of_int_sign n x :
  0 <= n -> float_of_int n = Return x ->
  x = S754_zero false \/ exists m e, x = S754_finite false m e.
Proof.
  intros Hn. unfold float_of_int, binary_normalize.
  destruct n as [|p|p]; try lia.
  - intros [= <-]. auto.
  - unfold binary_round.
    destruct (shl_align p 0 _) as [mz ez].
    pose proof (binary_round_aux_sign false (Zpos mz) ez loc_Exact ltac:(lia)) as Hs.
    destruct (binary_round_aux prec emax false (Zpos mz) ez loc_Exact)
      as [s|s| |s m e]; try discriminate; try contradiction;
      intros [= <-]; subst s; eauto.
Qed.

Lemma int_of_float_mul_nonneg x y my ey v :
  (x = S754_zero false \/ exists m e, x = S754_finite false m e) ->
  y = S754_finite false my ey ->
  int_of_float (float_mul x y) = Return v -> 0 <= v.
Proof.
  intros [-> | (m & e & ->)] ->; unfold float_mul, SFmul; cbn [xorb].
  - intros [= <-]. lia.
  - pose proof (binary_round_aux_sign false (Zpos (m * my)) (e + ey) loc_Exact
                  ltac:(lia)) as Hs.
    destruct (binary_round_aux prec emax false (Zpos (m * my)) (e + ey) loc_Exact)
      as [s|s| |s m' e']; cbn [int_of_float]; try discriminate; try contradiction.
    + intros [= <-]. lia.
    + subst s. intros [= <-]. apply Z.shiftl_nonneg. lia.
Qed.

(** A product with a factor of the table is not negative. *)
Lemma factor_product_nonneg n u factor v :
  0 <= n ->
  dict_get [("Ki", PyFloat two_pow_minus_10); ("M", PyInt 1);
            ("Mi", PyInt 1); ("G", PyInt 1024); ("Gi", PyInt 1024)] u
  = Some factor ->
  (product <- int_mul n factor ;; int_of_number product)%result = Return v ->
  0 <= v
  /\ (factor = PyInt 1 -> v = n)
  /\ (factor = PyInt 1024 -> v = n * 1024).
Proof.
  intros Hn Hget. cbn [dict_get] in Hget.
  repeat match type of Hget with
         | (if ?b then _ else _) = _ => destruct b
         end; try discriminate; injection Hget as <-; cbn [int_mul rbind int_of_number].
  1:{ destruct (float_of_int n) as [x|e] eqn:Hx; cbn [rbind]; [|discriminate].
      intros Hv. split; [|split; discriminate].
      eapply int_of_float_mul_nonneg;
        [eapply float_of_int_sign; eassumption | reflexivity | exact Hv]. }
  all: intros [= <-]; split; [lia|];
    split; intros Hf; first [discriminate Hf | lia].
Qed.

Lemma dict_get_inside {V} (d : list (string * V)) k v :
  dict_get d k = Some v -> in_list k (map fst d) = true.
Proof.
  unfold in_list. induction d as [|[k' v'] d IH]; cbn [dict_get map existsb fst];
    [discriminate|].
  rewrite (String.eqb_sym k k'). destruct (String.eqb k' k); [reflexivity|].
  cbn [orb]. exact IH.
Qed.

(** Whatever [parse_memory] returns comes from a string of the pattern
    with a unit of the table, and is not negative. *)
Lemma parse_memory_return value mib :
  parse_memory value = Return mib ->
  exists number unit,
    quantity_pattern value number unit
    /\ in_list (unit_or_default unit) unit_names = true
    /\ 0 <= mib
    /\ (in_list (unit_or_default unit) ["M"; "Mi"] = true ->
        mib = int_of_digits number)
    /\ (in_list (unit_or_default unit) ["G"; "Gi"] = true ->
        mib = int_of_digits number * 1024).
Proof.
  intros Hret.
  destruct (match_quantity value) as [[number g]|] eqn:Hm.
  2:{ unfold parse_memory in Hret. rewrite units_value, Hm in Hret. discriminate. }
  destruct (match_quantity_sound _ _ _ Hm) as (unit & _ & Hp).
  exists number, unit. split; [assumption|].
  rewrite (parse_memory_of_match _ _ _ Hp) in Hret.
  destruct Hp as (Hne & Hd & _).
  rewrite int_of_str_digits_cases in Hret by assumption.
  destruct (exceeds_int_max_str_digits _); [discriminate|]. cbn [rbind] in Hret.
  destruct (dict_get _ (unit_or_default unit)) as [factor|] eqn:Hget;
    [|discriminate].
  pose proof (dict_get_inside _ _ _ Hget) as Hin.
  destruct (factor_product_nonneg _ _ _ _ (int_of_digits_nonneg _ Hd) Hget Hret)
    as (Hv & H1 & H1024).
  split; [exact Hin|]. split; [assumption|].
  destruct (unit_names_cases _ Hin) as [Hu|[Hu|[Hu|[Hu|Hu]]]];
    rewrite Hu in Hget |- *; injection Hget as <-;
    split; intros Hx;
    first [discriminate Hx | apply H1; reflexivity | apply H1024; reflexivity].
Qed.

(** X2: [parse_memory] returns only on a string of the pattern whose unit
    is in the table; the value is not negative, it is the number for [M],
    [Mi] and no unit, and 1024 times the number for [G] and [Gi]. *)
Theorem parse_memory_returns_only_table_units value mib :
  parse_memory value = Return mib ->
  exists number unit,
    quantity_pattern value number unit
    /\ in_list (unit_or_default unit) unit_names = true
    /\ 0 <= mib
    /\ (in_list (unit_or_default unit) ["M"; "Mi"] = true ->
        mib = int_of_digits number)
    /\ (in_list (unit_or_default unit) ["G"; "Gi"] = true ->
        mib = int_of_digits number * 1024).
Proof. apply parse_memory_return. Qed.

Lemma parse_memory_returns_only_table_units_witness :
  parse_memory "3Gi" = Return 3072
  /\ exists number unit,
      quantity_pattern "3Gi" number unit
      /\ in_list (unit_or_default unit) unit_names = true
      /\ 0 <= 3072
      /\ (in_list (unit_or_default unit) ["M"; "Mi"] = true ->
          3072 = int_of_digits number)
      /\ (in_list (unit_or_default unit) ["G"; "Gi"] = true ->
          3072 = int_of_digits number * 1024).
Proof.
  assert (H1 : parse_memory "3Gi" = Return 3072) by reflexivity.
  refine (conj H1 _).
  exact (parse_memory_returns_only_table_units "3Gi" 3072 H1).
Defined.

(** ** The metrics fetcher *)

Lemma sum_parsed_ge cs acc v : sum_parsed acc cs = Return v -> acc <= v.
Proof.
  revert acc. induction cs as [|c cs IH]; intros acc; cbn [sum_parsed].
  - intros [= <-]. lia.
  - destruct (parse_memory (memory (container_usage c))) as [m|e] eqn:Hm;
      cbn [rbind]; [|discriminate].
    intros Hs. apply IH in Hs.
    destruct (parse_memory_return _ _ Hm) as (_ & _ & _ & _ & Hpos & _). lia.
Qed.

Lemma fetch_memory_nonneg self resource_type namespace name v :
  fetch_memory self resource_type namespace name = Return v -> 0 <= v.
Proof.
  unfold fetch_memory.
  destruct (String.eqb resource_type "node").
  - destruct (get_cluster_custom_object _ _ _ _ _); cbn [rbind]; [|discriminate].
    destruct (Pydantic.NodeMetrics_init _); cbn [rbind]; [|discriminate].
    intros Hm. destruct (parse_memory_return _ _ Hm) as (_ & _ & _ & _ & Hpos & _).
    exact Hpos.
  - destruct (String.eqb resource_type "pod"); [|discriminate].
    destruct (get_namespaced_custom_object _ _ _ _ _ _); cbn [rbind]; [|discriminate].
    destruct (Pydantic.PodMetrics_init _); cbn [rbind]; [|discriminate].
    apply sum_parsed_ge.
Qed.

(** X3: a usage that [get_memory_utilization] returns is not negative and
    comes with nothing printed; [None] comes with exactly one line added
    to the console. *)
Theorem fetched_usage_is_not_negative self resource_type namespace name out r out' :
  get_memory_utilization self resource_type namespace name out = (Return r, out') ->
  match r with
  | Some v => 0 <= v /\ out' = out
  | None =>
      exists e, out' = (out ++ [error_fetching_memory resource_type name e])%list
  end.
Proof.
  rewrite get_memory_utilization_eq.
  destruct (fetch_memory self resource_type namespace name) as [v|e] eqn:Hf;
    intros [= <- <-].
  - split; [eapply fetch_memory_nonneg; eassumption | reflexivity].
  - eauto.
Qed.

Lemma fetched_usage_is_not_negative_witness :
  get_memory_utilization Demo.cluster "pod" (Some "default") "p2" []
  = (Return (Some 120), [])
  /\ 0 <= 120 /\ @nil renderable = [].
Proof.
  assert (H1 : get_memory_utilization Demo.cluster "pod" (Some "default") "p2" []
               = (Return (Some 120), [])) by reflexivity.
  refine (conj H1 _).
  exact (fetched_usage_is_not_negative Demo.cluster "pod" (Some "default") "p2"
           [] (Some 120) [] H1).
Defined.

(** ** The controller resolver *)









(** ** Console effects *)














(** ** The pod and controller tables *)









(** ** The node table *)










(** ** The capacity string *)

Lemma rstrip_all p s : all_chars p s = true -> rstrip p s = "".
Proof.
  induction s as [|c r IH]; cbn [all_chars rstrip]; [reflexivity|].
  intros H. apply andb_true_iff in H as [Hc Hr]. rewrite IH, Hc by assumption.
  reflexivity.
Qed.

Lemma rstrip_suffix p a b :
  a <> "" -> all_chars (fun c => negb (p c)) a = true -> all_chars p b = true ->
  rstrip p (a ++ b) = a.
Proof.
  intros Hne Ha Hb. induction a as [|c r IH]; [congruence|].
  cbn [all_chars] in Ha. apply andb_true_iff in Ha as [Hc Hr].
  apply negb_true_iff in Hc. cbn [append rstrip].
  destruct r as [|c' r'].
  - cbn [append]. rewrite rstrip_all, Hc by assumption. reflexivity.
  - rewrite IH by (try assumption; discriminate). reflexivity.
Qed.

Lemma digits_outside_Ki s :
  all_chars is_digit s = true ->
  all_chars (fun c => negb (in_chars "Ki" c)) s = true.
Proof.
  induction s as [|c r IH]; cbn [all_chars]; [reflexivity|].
  intros H. apply andb_true_iff in H as [Hc Hr]. rewrite IH by assumption.
  rewrite andb_true_r. apply negb_true_iff.
  unfold in_chars. cbn [list_ascii_of_string existsb].
  destruct (Ascii.eqb_spec c "K") as [->|_]; [discriminate Hc|].
  destruct (Ascii.eqb_spec c "i") as [->|_]; [discriminate Hc|].
  reflexivity.
Qed.

Lemma memory_capacity_of_suffix node d number suffix :
  capacity node = Some d ->
  dict_get d "memory" = Some (number ++ suffix) ->
  number <> "" ->
  all_chars is_digit number = true ->
  all_chars (in_chars "Ki") suffix = true ->
  memory_capacity_of node
  = (kib <- int_of_str number ;; int_truediv kib 1024)%result.
Proof.
  intros Hcap Hmem Hne Hd Hs.
  unfold memory_capacity_of. rewrite Hcap. cbn [rbind]. rewrite Hmem.
  cbn [rbind]. rewrite rstrip_suffix; auto using digits_outside_Ki.
Qed.

(** X11: the capacity is read by removing every trailing [K] and [i], one
    character at a time, and taking what is left as a number of KiB: a
    capacity written as a bare number, or with [K], [i] or [iK] after it,
    is read as the same number followed by [Ki]. *)
Theorem capacity_is_read_as_KiB node d number suffix :
  capacity node = Some d ->
  dict_get d "memory" = Some (number ++ suffix) ->
  number <> "" ->
  all_chars is_digit number = true ->
  all_chars (in_chars "Ki") suffix = true ->
  memory_capacity_of node
  = (kib <- int_of_str number ;; int_truediv kib 1024)%result
  /\ ((String.length number <= int_max_str_digits)%nat ->
      memory_capacity_of node = int_truediv (int_of_digits number) 1024).
Proof.
  intros Hcap Hmem Hne Hd Hs.
  pose proof (memory_capacity_of_suffix _ _ _ _ Hcap Hmem Hne Hd Hs) as Heq.
  split; [exact Heq|].
  intros Hlen. rewrite Heq, int_of_str_digits by assumption. reflexivity.
Qed.

Lemma capacity_is_read_as_KiB_witness :
  capacity Sample.node_k = Some [("cpu", "4"); ("memory", "2048000" ++ "iK")]
  /\ dict_get [("cpu", "4"); ("memory", "2048000" ++ "iK")] "memory"
     = Some ("2048000" ++ "iK")
  /\ "2048000" <> ""
  /\ all_chars is_digit "2048000" = true
  /\ all_chars (in_chars "Ki") "iK" = true
  /\ (String.length "2048000" <= int_max_str_digits)%nat
  /\ memory_capacity_of Sample.node_k = int_truediv (int_of_digits "2048000") 1024.
Proof.
  assert (H1 : capacity Sample.node_k
               = Some [("cpu", "4"); ("memory", "2048000" ++ "iK")]) by reflexivity.
  assert (H2 : dict_get [("cpu", "4"); ("memory", "2048000" ++ "iK")] "memory"
               = Some ("2048000" ++ "iK")) by reflexivity.
  assert (H3 : "2048000" <> "") by discriminate.
  assert (H4 : all_chars is_digit "2048000" = true) by reflexivity.
  assert (H5 : all_chars (in_chars "Ki") "iK" = true) by reflexivity.
  assert (H6 : (String.length "2048000" <= int_max_str_digits)%nat)
    by (apply Nat.leb_le; reflexivity).
  refine (conj H1 (conj H2 (conj H3 (conj H4 (conj H5 (conj H6 _)))))).
  exact (proj2 (capacity_is_read_as_KiB Sample.node_k _ "2048000" "iK"
                  H1 H2 H3 H4 H5) H6).
Defined.

Lemma digits_le_53 p : Zpos p < 2 ^ 53 -> Zpos (digits2_pos p) <= 53.
Proof.
  intros Hp. pose proof (digits2_pos_bounds p) as [Hlo Hhi].
  destruct (Z.le_gt_cases (Zpos (digits2_pos p)) 53) as [|H]; [assumption|].
  assert (2 ^ 53 <= 2 ^ (Zpos (digits2_pos p) - 1)) by (apply Z.pow_le_mono_r; lia).
  lia.
Qed.

(** Below 2^53 the quotient by 1024 is exact. *)
Lemma int_truediv_1024_small p :
  Zpos p < 2 ^ 53 ->
  exists m,
    Zpos (digits2_pos m) = 53
    /\ Zpos m = Zpos p * 2 ^ (53 - Zpos (digits2_pos p))
    /\ int_truediv (Zpos p) 1024
       = Return (S754_finite false m (Zpos (digits2_pos p) - 63)).
Proof.
  intros Hp. pose proof (digits_le_53 p Hp) as Hd.
  set (d := Zpos (digits2_pos p)) in *.
  assert (Hd1 : 1 <= d) by (subst d; lia).
  unfold int_truediv. cbn [Z.eqb Z.ltb Z.compare Z.abs Z.to_pos].
  unfold SFdiv, SFdiv_core_binary. cbn [xorb].
  change (Zdigits2 (Zpos p)) with d. change (Zdigits2 1024) with 11.
  rewrite fexp_eq.
  replace (Z.min (Z.max (d + 0 - (11 + 0) - 53) (-1074)) (0 - 0)) with (d - 64) by lia.
  replace (0 - 0 - (d - 64)) with (64 - d) by lia.
  destruct (64 - d) as [|k|k] eqn:Hk; try lia.
  rewrite Z.shiftl_mul_pow2 by lia.
  pose (j := Z.to_pos (53 - d + 1)).
  assert (Hj : Zpos j = 54 - d) by (subst j; rewrite Z2Pos.id; lia).
  assert (Hq : Zpos p * 2 ^ Zpos k = Zpos (Pos.iter xO p j) * 1024).
  { rewrite Zpos_iter_xO, Hj. replace (Zpos k) with ((54 - d) + 10) by lia.
    rewrite Z.pow_add_r by lia. change (2 ^ 10) with 1024. lia. }
  rewrite Hq.
  assert (Hdiv : Z.div_eucl (Zpos (Pos.iter xO p j) * 1024) 1024
                 = (Zpos (Pos.iter xO p j), 0)).
  { pose proof (Z.div_mul (Zpos (Pos.iter xO p j)) 1024 ltac:(lia)) as H1.
    pose proof (Z.mod_mul (Zpos (Pos.iter xO p j)) 1024 ltac:(lia)) as H2.
    unfold Z.div, Z.modulo in H1, H2.
    destruct (Z.div_eucl (Zpos (Pos.iter xO p j) * 1024) 1024) as [q r].
    congruence. }
  rewrite Hdiv. change (new_location 1024 0) with loc_Exact.
  unfold binary_round_aux. unfold shr_fexp at 1.
  change (Zdigits2 (Zpos (Pos.iter xO p j)))
    with (Zpos (digits2_pos (Pos.iter xO p j))).
  rewrite digits2_pos_iter_xO, Hj, fexp_eq. fold d.
  replace (Z.max (d + (54 - d) + (d - 64) - 53) (-1074) - (d - 64)) with 1 by lia.
  cbn [shr_record_of_loc shr iter_pos].
  (* the quotient is even: one shift is exact *)
  destruct (Pos.eq_dec j 1) as [Hj1|Hj1].
  - rewrite Hj1 in *. cbn [Pos.iter shr_1 orb].
    cbn [shr_m loc_of_shr_record round_nearest_even].
    rewrite shr_fexp_canonical by (fold d; lia).
    cbn [shr_m]. change (Z.sub emax prec) with 971.
    replace (d - 64 + 1) with (d - 63) by lia.
    destruct (Z.leb_spec (d - 63) 971); [|lia].
    exists p. split; [fold d; lia|]. split; [|reflexivity].
    fold d. replace (53 - d) with 0 by lia. lia.
  - destruct (Pos.succ_pred_or j) as [|Hs]; [contradiction|].
    rewrite <- Hs, Pos.iter_succ. cbn [shr_1 orb].
    cbn [shr_m loc_of_shr_record round_nearest_even].
    assert (Hdm : Zpos (digits2_pos (Pos.iter xO p (Pos.pred j))) = 53).
    { rewrite digits2_pos_iter_xO. fold d. lia. }
    rewrite shr_fexp_canonical by (try assumption; lia).
    cbn [shr_m]. change (Z.sub emax prec) with 971.
    replace (d - 64 + 1) with (d - 63) by lia.
    destruct (Z.leb_spec (d - 63) 971); [|lia].
    exists (Pos.iter xO p (Pos.pred j)). split; [assumption|]. split; [|reflexivity].
    rewrite Zpos_iter_xO. f_equal. f_equal. lia.
Qed.

Lemma ceil_of_quotient p c :
  0 < c -> - ((- (p * c)) / (c * 1024)) = (p + 1023) / 1024.
Proof.
  intros Hc.
  replace (- (p * c)) with ((- p) * c) by lia.
  rewrite (Z.mul_comm c 1024), Z.div_mul_cancel_r by lia.
  pose proof (Z.div_mod (- p) 1024 ltac:(lia)) as H1.
  pose proof (Z.mod_pos_bound (- p) 1024 ltac:(lia)) as B1.
  pose proof (Z.div_mod (p + 1023) 1024 ltac:(lia)) as H2.
  pose proof (Z.mod_pos_bound (p + 1023) 1024 ltac:(lia)) as B2.
  lia.
Qed.

(** X12: for a capacity of less than 2^53 KiB written as digits followed
    by [Ki], the capacity in MiB is the exact quotient by 1024, held in
    a float without rounding, and the capacity cell of the node shows that
    quotient rounded up to a whole number. *)
Theorem capacity_cell_rounds_up node d number :
  capacity node = Some d ->
  dict_get d "memory" = Some (number ++ "Ki") ->
  number <> "" ->
  all_chars is_digit number = true ->
  (String.length number <= int_max_str_digits)%nat ->
  0 < int_of_digits number < 2 ^ 53 ->
  exists m e,
    memory_capacity_of node = Return (S754_finite false m e)
    /\ e < 0
    /\ Zpos m * 1024 = int_of_digits number * 2 ^ (- e)
    /\ ceil_float (S754_finite false m e)
       = Return ((int_of_digits number + 1023) / 1024).
Proof.
  intros Hcap Hmem Hne Hd Hlen [Hpos Hsmall].
  rewrite (memory_capacity_of_suffix _ _ _ "Ki" Hcap Hmem Hne Hd eq_refl).
  rewrite int_of_str_digits by assumption. cbn [rbind].
  destruct (int_of_digits number) as [|p|p]; try lia.
  destruct (int_truediv_1024_small p Hsmall) as (m & Hdm & Hm & ->).
  pose proof (digits_le_53 p Hsmall) as Hdp.
  set (dp := Zpos (digits2_pos p)) in *.
  assert (Hc : 0 < 2 ^ (53 - dp)) by (apply Z.pow_pos_nonneg; lia).
  exists m, (dp - 63). split; [reflexivity|]. split; [lia|]. split.
  - rewrite Hm. replace (- (dp - 63)) with ((53 - dp) + 10) by lia.
    rewrite Z.pow_add_r by lia. change (2 ^ 10) with 1024. lia.
  - cbn [ceil_float]. f_equal.
    rewrite <- Z.shiftr_opp_r, Z.shiftr_div_pow2 by lia.
    replace (- (dp - 63)) with ((53 - dp) + 10) by lia.
    rewrite Z.pow_add_r by lia. change (2 ^ 10) with 1024.
    change (Zneg m) with (- Zpos m). rewrite Hm.
    apply ceil_of_quotient. assumption.
Qed.

Lemma capacity_cell_rounds_up_witness :
  capacity (Demo.node "node-w" "1000001Ki")
  = Some [("cpu", "4"); ("memory", "1000001" ++ "Ki")]
  /\ dict_get [("cpu", "4"); ("memory", "1000001" ++ "Ki")] "memory"
     = Some ("1000001" ++ "Ki")
  /\ "1000001" <> ""
  /\ all_chars is_digit "1000001" = true
  /\ (String.length "1000001" <= int_max_str_digits)%nat
  /\ 0 < int_of_digits "1000001" < 2 ^ 53
  /\ exists m e,
      memory_capacity_of (Demo.node "node-w" "1000001Ki")
      = Return (S754_finite false m e)
      /\ e < 0
      /\ Zpos m * 1024 = int_of_digits "1000001" * 2 ^ (- e)
      /\ ceil_float (S754_finite false m e)
         = Return ((int_of_digits "1000001" + 1023) / 1024).
Proof.
  assert (H1 : capacity (Demo.node "node-w" "1000001Ki")
               = Some [("cpu", "4"); ("memory", "1000001" ++ "Ki")])
    by reflexivity.
  assert (H2 : dict_get [("cpu", "4"); ("memory", "1000001" ++ "Ki")] "memory"
               = Some ("1000001" ++ "Ki")) by reflexivity.
  assert (H3 : "1000001" <> "") by discriminate.
  assert (H4 : all_chars is_digit "1000001" = true) by reflexivity.
  assert (H5 : (String.length "1000001" <= int_max_str_digits)%nat)
    by (apply Nat.leb_le; reflexivity).
  assert (H6 : 0 < int_of_digits "1000001" < 2 ^ 53) by (split; reflexivity).
  refine (conj H1 (conj H2 (conj H3 (conj H4 (conj H5 (conj H6 _)))))).
  exact (capacity_cell_rounds_up (Demo.node "node-w" "1000001Ki") _ "1000001"
           H1 H2 H3 H4 H5 H6).
Defined.

(** ** The run *)






